(** * moris_slave: the subject / helper-role services

    A shallow embedding of
      - [src/services/subjectHelperService/SubjectHelperService.ts]
        (class [SubjectHelperService]) and
      - the whip-slaves service (class [SlaveWhipperService]),
    over an explicit model of the part of a Discord guild the two classes
    read and write: the channel cache, the role cache, role membership, and
    the requests sent through the interaction object.

    Asynchronous methods are modelled in a state-and-exception monad: every
    [await] is a sequencing point, a rejected promise is a thrown error, and
    the state reached before a throw is kept (requests already sent stay
    sent).  One command runs at a time.  The requests that change the guild
    (creating a channel, creating a role, adding a role to a member) can be
    rejected by the platform; a message sent through an interaction is taken
    to be delivered, and the colour of a role to be one that the library
    resolves.  The caches are the guild as the platform has it: a created
    channel or role and a granted role are in them from then on. *)

From Stdlib Require Import Ascii String DecimalString.
From stdpp Require Import gmap strings list.

Local Open Scope string_scope.

(** ** JavaScript strings

    A string is the sequence of the UTF-8 bytes of its text.  Concatenation,
    and search for a pattern of ASCII characters ([includes], [endsWith],
    [replace] as used by the services), are the same on these bytes as on
    the UTF-16 code units that JavaScript indexes.  The case conversions of
    JavaScript follow the Unicode tables; the services take them as
    parameters, and [toLowerCase] and [toUpperCase] below are what they do
    to a text of ASCII characters. *)
Module Js.

Definition lower_ascii (c : ascii) : ascii :=
  let n := N_of_ascii c in
  if ((65 <=? n) && (n <=? 90))%N then ascii_of_N (n + 32) else c.

Definition upper_ascii (c : ascii) : ascii :=
  let n := N_of_ascii c in
  if ((97 <=? n) && (n <=? 122))%N then ascii_of_N (n - 32) else c.

(** [s.toLowerCase()] for [s] of ASCII characters. *)
Fixpoint toLowerCase (s : string) : string :=
  match s with
  | EmptyString => EmptyString
  | String c s' => String (lower_ascii c) (toLowerCase s')
  end.

(** [s.toUpperCase()] for [s] of ASCII characters. *)
Fixpoint toUpperCase (s : string) : string :=
  match s with
  | EmptyString => EmptyString
  | String c s' => String (upper_ascii c) (toUpperCase s')
  end.

(** [s.includes(sub)]: [sub] occurs in [s] at some position. *)
Fixpoint includes (s sub : string) : bool :=
  String.prefix sub s
  || match s with
     | EmptyString => false
     | String _ s' => includes s' sub
     end.

(** [s.endsWith(suf)]: some suffix of [s] is [suf]. *)
Fixpoint endsWith (s suf : string) : bool :=
  String.eqb s suf
  || match s with
     | EmptyString => false
     | String _ s' => endsWith s' suf
     end.

(** [s] without its first [n] bytes: [s.slice(n)] when these are [n] ASCII
    characters. *)
Fixpoint slice (n : nat) (s : string) : string :=
  match n, s with
  | O, _ => s
  | S n', String _ s' => slice n' s'
  | S _, EmptyString => EmptyString
  end.

(** [s.replace(pat, rep)] with a string pattern of ASCII characters: the
    first occurrence only. *)
Fixpoint replace (s pat rep : string) : string :=
  if String.prefix pat s then rep +:+ slice (String.length pat) s
  else match s with
       | EmptyString => EmptyString
       | String c s' => String c (replace s' pat rep)
       end.

(** Every character of [s] is an ASCII character. *)
Fixpoint is_ascii (s : string) : bool :=
  match s with
  | EmptyString => true
  | String c s' => (N_of_ascii c <? 128)%N && is_ascii s'
  end.

(** The number of bytes of the character whose first byte is [c]: one for
    an ASCII character, up to three for the others of the basic plane, four
    beyond it. *)
Definition utf8_length (c : ascii) : nat :=
  let n := N_of_ascii c in
  if (n <? 192)%N then 1
  else if (n <? 224)%N then 2
  else if (n <? 240)%N then 3
  else 4.

(** A function object, as far as the code looks at one: its [length]
    property, the number of declared parameters. *)
Record Function := { fn_length : N }.

(** [!n] on a number: only [0] (and NaN, which no length is) is falsy. *)
Definition not_number (n : N) : bool := (n =? 0)%N.

(** Truthiness of an object, and a function is one: always truthy. *)
Definition truthy_object {A : Type} (o : A) : bool := true.

End Js.

(** ** The guild *)

(** Identifiers are snowflakes: non-empty decimal strings of a 64-bit number.
    They are modelled by the number; [snowflake_string] gives the text that
    template literals interpolate.  As a string every identifier is truthy. *)
Abbreviation Snowflake := N (only parsing).

Definition snowflake_string (id : Snowflake) : string :=
  NilEmpty.string_of_uint (N.to_uint id).

(** Values of discord.js' [ChannelType] enum. *)
Abbreviation ChannelType := Z (only parsing).

Record Channel := {
  ch_id : Snowflake;
  ch_name : string;
  ch_type : ChannelType;
  ch_parentId : option Snowflake;
}.

Record Role := {
  role_id : Snowflake;
  role_name : string;
  role_color : string;
}.

(** The caches are insertion-ordered collections; [find] and [filter] go
    through them in that order.  [member_roles] is the role manager of each
    guild member, keyed by the member's user id. *)
Record Guild := {
  guild_id : Snowflake;
  channels_cache : list Channel;
  roles_cache : list Role;
  member_roles : gmap N (gset N);
}.

(** [channel.url] *)
Definition channel_url (g : Guild) (c : Channel) : string :=
  "https://discord.com/channels/" +:+ snowflake_string (guild_id g)
  +:+ "/" +:+ snowflake_string (ch_id c).

(** The roles a member holds ([member.roles.cache]). *)
Definition roles_of (g : Guild) (member : Snowflake) : gset N :=
  default ∅ (member_roles g !! member).

(** ** The interaction *)

(** The value of a command option. *)
Inductive OptionValue :=
| VString (s : string)
| VNumber (z : Z)
| VBoolean (b : bool).

Record CommandOption := {
  opt_name : string;
  opt_value : OptionValue;
}.

Record User := {
  user_id : Snowflake;
  user_displayName : string;
}.

(** A chat-input command interaction: who invoked it, with which options, and
    in which channel. *)
Record Interaction := {
  int_user : User;
  int_options : list CommandOption;
  int_channel : Channel;
}.

(** One option of a string select menu. *)
Record SelectOption := {
  so_label : string;
  so_value : Snowflake;
}.

Record StringSelectMenu := {
  sm_custom_id : string;
  sm_placeholder : string;
  sm_min_values : nat;
  sm_options : list SelectOption;
}.

(** A message-component interaction on the menu: the user who made the
    selection and the values selected. *)
Record SelectInteraction := {
  sel_user : Snowflake;
  sel_values : list Snowflake;
}.

(** ** Requests and errors *)

(** The requests the services send, in the order they are issued. *)
Inductive ApiCall :=
| InteractionReply (content : string) (ephemeral : bool)
    (components : list StringSelectMenu)
| InteractionDeleteReply
| InteractionDeferReply
| InteractionEditReply (content : string)
| ComponentReply (content : string) (ephemeral : bool)
| ComponentFollowUp (content : string)
| ChannelsCreate (name : string) (type : ChannelType)
    (parent : option Snowflake)
| RolesCreate (name color : string)
| MemberRolesAdd (member role : Snowflake).

Inductive Error :=
| ValidationError (message : string)
| JsError (message : string)
| TypeError (message : string)
| DiscordAPIError (call : ApiCall)
| InteractionCollectorError (reason : string).

(** The world outside the service object.  [faults] is the fate of the
    coming guild-mutating requests, one flag per request ([true]: the
    platform rejects it); past the end of the list every request succeeds.
    [next_id] is the identifier the platform gives to the next resource it
    creates. *)
Record World := {
  guild : Guild;
  next_id : Snowflake;
  faults : list bool;
  trace : list ApiCall;
}.

(** The fields of a [SubjectHelperService] object; [this.guild] is the
    [guild] of the world.  [categoryChannelId] is [None] while the field is
    undefined. *)
Record SubjectHelperService := {
  interaction : Interaction;
  categoryChannelId : option Snowflake;
}.

(** [new SubjectHelperService(interaction)] *)
Definition constructor (i : Interaction) : SubjectHelperService :=
  {| interaction := i; categoryChannelId := None |}.

(** ** The monad of asynchronous methods *)

Inductive Outcome (A : Type) :=
| Returned (a : A)
| Thrown (e : Error).
Arguments Returned {A} a.
Arguments Thrown {A} e.

Definition State : Type := SubjectHelperService * World.

Definition Async (A : Type) : Type := State → Outcome A * State.

#[export] Instance Async_ret : MRet Async := λ A a st, (Returned a, st).

#[export] Instance Async_bind : MBind Async := λ A B k c st,
  match c st with
  | (Returned a, st') => k a st'
  | (Thrown e, st') => (Thrown e, st')
  end.

Definition throw {A} (e : Error) : Async A := λ st, (Thrown e, st).

(** [try { body } catch (err) { handler(err) }] *)
Definition try_catch {A} (body : Async A) (handler : Error → Async A) : Async A :=
  λ st, match body st with
        | (Returned a, st') => (Returned a, st')
        | (Thrown e, st') => handler e st'
        end.

Definition this : Async SubjectHelperService := λ st, (Returned st.1, st).
Definition world : Async World := λ st, (Returned st.2, st).

(** The object after [this.categoryChannelId = id]. *)
Definition with_categoryChannelId (self : SubjectHelperService)
    (id : Snowflake) : SubjectHelperService :=
  {| interaction := interaction self; categoryChannelId := Some id |}.

Definition set_categoryChannelId (id : Snowflake) : Async () := λ st,
  (Returned (), (with_categoryChannelId st.1 id, st.2)).

Definition log (w : World) (c : ApiCall) : World :=
  {| guild := guild w; next_id := next_id w; faults := faults w;
     trace := trace w ++ [c] |}.

(** A request that only sends a message through an interaction. *)
Definition send (c : ApiCall) : Async () := λ st,
  (Returned (), (st.1, log st.2 c)).

(** ** Guild managers *)

Definition add_channel (g : Guild) (c : Channel) : Guild :=
  {| guild_id := guild_id g; channels_cache := channels_cache g ++ [c];
     roles_cache := roles_cache g; member_roles := member_roles g |}.

Definition add_role (g : Guild) (r : Role) : Guild :=
  {| guild_id := guild_id g; channels_cache := channels_cache g;
     roles_cache := roles_cache g ++ [r]; member_roles := member_roles g |}.

Definition grant_role (g : Guild) (member role : Snowflake) : Guild :=
  {| guild_id := guild_id g; channels_cache := channels_cache g;
     roles_cache := roles_cache g;
     member_roles :=
       <[member := {[role]} ∪ roles_of g member]> (member_roles g) |}.

(** The world once a guild-mutating request [c] has been sent: the request
    is logged and has taken the next flag of [faults]. *)
Definition sent (w : World) (c : ApiCall) : World :=
  {| guild := guild w; next_id := next_id w; faults := tail (faults w);
     trace := trace w ++ [c] |}.

(** The platform accepts the next guild-mutating request. *)
Definition accepts (w : World) : bool :=
  match faults w with
  | true :: _ => false
  | _ => true
  end.

(** A guild-mutating request: when the platform rejects it the promise
    rejects and the guild is left as it was; otherwise [apply] carries it
    out. *)
Definition request {A} (c : ApiCall) (apply : World → A * World)
  : Async A := λ st,
  if accepts st.2 then
    let '(a, w) := apply (sent st.2 c) in (Returned a, (st.1, w))
  else (Thrown (DiscordAPIError c), (st.1, sent st.2 c)).

(** The channel a successful [channels.create] makes in world [w], and the
    world with it in the cache. *)
Definition new_channel (w : World) (name : string) (type : ChannelType)
    (parent : option Snowflake) : Channel :=
  {| ch_id := next_id w; ch_name := name; ch_type := type;
     ch_parentId := parent |}.

Definition with_channel (w : World) (c : Channel) : World :=
  {| guild := add_channel (guild w) c; next_id := N.succ (next_id w);
     faults := faults w; trace := trace w |}.

Definition new_role (w : World) (name color : string) : Role :=
  {| role_id := next_id w; role_name := name; role_color := color |}.

Definition with_role (w : World) (r : Role) : World :=
  {| guild := add_role (guild w) r; next_id := N.succ (next_id w);
     faults := faults w; trace := trace w |}.

Definition with_grant (w : World) (member role : Snowflake) : World :=
  {| guild := grant_role (guild w) member role; next_id := next_id w;
     faults := faults w; trace := trace w |}.

(** [guild.channels.create({ name, type, parent })]; the created channel is
    added to the cache. *)
Definition guild_channels_create (name : string) (type : ChannelType)
    (parent : option Snowflake) : Async Channel :=
  request (ChannelsCreate name type parent) (λ w,
    let c := new_channel w name type parent in (c, with_channel w c)).

(** [guild.roles.create({ name, color })] *)
Definition guild_roles_create (name color : string) : Async Role :=
  request (RolesCreate name color) (λ w,
    let r := new_role w name color in (r, with_role w r)).

(** [member.roles.add(role)] *)
Definition member_roles_add (member role : Snowflake) : Async () :=
  request (MemberRolesAdd member role) (λ w, ((), with_grant w member role)).

(** [Collection.prototype.values], read as a property and not called: the
    method object itself, whatever the collection holds.  It is
    [Map.prototype.values], declared without parameters. *)
Definition Collection_values {A : Type} (c : list A) : Js.Function :=
  {| Js.fn_length := 0 |}.

(** The error of a collector that ends on its time limit with nothing
    collected. *)
Definition timeout : Error :=
  InteractionCollectorError
    "Collector received no interactions before ending with reason: time".

(** The error of reading [id] on an undefined role. *)
Definition no_role : Error :=
  TypeError "Cannot read properties of undefined (reading 'id')".

(** [response.awaitMessageComponent({ filter, time })]: the promise resolves
    with the first component interaction that passes [filter] among those
    that arrive within [time]; [incoming] lists the arrivals of that window in
    order.  When none passes, it rejects at the end of the window. *)
Definition awaitMessageComponent (filter : SelectInteraction → bool)
    (incoming : list SelectInteraction) : Async SelectInteraction :=
  match List.find filter incoming with
  | Some i => mret i
  | None => throw timeout
  end.

(** ** SubjectHelperService *)

(** The cleaned options [helperSchema.validate] resolves with. *)
Record HelperOptions := {
  name : string;
  color : string;
  emoji : string;
}.

(** An element of [helperRoles] in [handleBecomeHelper]. *)
Record HelperRole := {
  hr_id : Snowflake;
  hr_role : string;
  hr_subject : string;
}.

(** ** A small guild for the examples

    A category, one forum channel under it, one helper role and a member.
    [validate] plays [helperSchema]: three required strings. *)
Module Example.

Definition category : Channel :=
  {| ch_id := 1; ch_name := "Subjects"; ch_type := 4; ch_parentId := None |}.

Definition study : Channel :=
  {| ch_id := 2; ch_name := "calculus-math-study"; ch_type := 15;
     ch_parentId := Some 1%N |}.

Definition math_helper : Role :=
  {| role_id := 50; role_name := "math-helper"; role_color := "#3498DB" |}.

Definition ann : User := {| user_id := 7; user_displayName := "ann" |}.

Definition server : Guild :=
  {| guild_id := 100; channels_cache := [category; study];
     roles_cache := [math_helper]; member_roles := ∅ |}.

(** The same guild before it has a category. *)
Definition bare : Guild :=
  {| guild_id := 100; channels_cache := []; roles_cache := [math_helper];
     member_roles := ∅ |}.

(** The same guild once [ann] holds the helper role. *)
Definition enrolled : Guild :=
  {| guild_id := 100; channels_cache := [category; study];
     roles_cache := [math_helper];
     member_roles := {[ 7%N := {[ 50%N ]} ]} |}.

Definition start (g : Guild) (faults : list bool) : World :=
  {| guild := g; next_id := 101; faults := faults; trace := [] |}.

Definition command (options : list CommandOption) : Interaction :=
  {| int_user := ann; int_options := options; int_channel := study |}.

Definition subject (n c e : string) : list CommandOption :=
  [ {| opt_name := "name"; opt_value := VString n |};
    {| opt_name := "color"; opt_value := VString c |};
    {| opt_name := "emoji"; opt_value := VString e |} ].

Definition validate (o : gmap string OptionValue) : string + HelperOptions :=
  match o !! "name", o !! "color", o !! "emoji" with
  | Some (VString n), Some (VString c), Some (VString e) =>
      inr {| name := n; color := c; emoji := e |}
  | Some (VString _), Some (VString _), _ => inl "emoji is a required field"
  | Some (VString _), _, _ => inl "color is a required field"
  | _, _, _ => inl "name is a required field"
  end.

(** The subject of the documentation's example, and one whose name an
    existing channel contains. *)
Definition biology : list CommandOption := subject "Biology" "#00FF00" "🧬".

Definition math : list CommandOption := subject "Math" "#00FF00" "🧮".

Definition math_forum : Channel :=
  {| ch_id := 101; ch_name := "🧮-Math"; ch_type := 15;
     ch_parentId := Some 1%N |}.

(** A selection of the helper role by [ann], one by somebody else, and one
    by [ann] that selects nothing. *)
Definition by_ann : SelectInteraction :=
  {| sel_user := 7; sel_values := [50%N] |}.

Definition by_bob : SelectInteraction :=
  {| sel_user := 8; sel_values := [50%N] |}.

Definition nothing_by_ann : SelectInteraction :=
  {| sel_user := 7; sel_values := [] |}.

End Example.

Section Service.

(** [String.prototype.toLowerCase] and [String.prototype.toUpperCase], which
    follow the Unicode case tables, are parameters. *)
Variable toLowerCase : string → string.
Variable toUpperCase : string → string.

(** [constants/channels], [constants/inputIds] and [helperSchema] are modules
    of the repository that the services import; they are parameters here.
    [helperSchema_validate] stands for [helperSchema.validate]: it rejects
    with an error that has a [message], or resolves with the cleaned
    options. *)
Variable CATEGORY_CHANNEL_NAME : string.
Variable CATEGORY_CHANNEL_TYPE : ChannelType.
Variable FORUM_CHANNEL_TYPE : ChannelType.
Variable SELECT_HELPER_ROLES_ID : string.
Variable helperSchema_validate : gmap string OptionValue → string + HelperOptions.

(** What the two functions do to a text of ASCII characters: they map the
    letters [A] to [Z] and [a] to [z] onto each other and leave the other
    characters alone. *)
Definition ascii_case_maps : Prop :=
  (∀ s, Js.is_ascii s = true → toLowerCase s = Js.toLowerCase s)
  ∧ (∀ s, Js.is_ascii s = true → toUpperCase s = Js.toUpperCase s).

(** [r.name[0].toUpperCase() + r.name.slice(1).replace("-helper", "")].
    [r.name[0]] is the first UTF-16 code unit and [r.name.slice(1)] what
    follows it.  A first character of the basic plane (up to three bytes
    here) is one unit: it is put in upper case and the rest follows.  A
    first character beyond it (four bytes) is a surrogate pair: [r.name[0]]
    is its first half, which [toUpperCase] leaves as it is, the rest starts
    with its second half, and the two are whole again in the sum.
    On the empty name [r.name[0]] is undefined; the filter before the [map]
    lets no such name through (see [endsWith_helper_nonempty]). *)
Definition subject_label (role_name : string) : string :=
  match role_name with
  | String c _ =>
      let k := Js.utf8_length c in
      let first := String.substring 0 k role_name in
      (if Nat.eqb k 4 then first else toUpperCase first)
      +:+ Js.replace (Js.slice k role_name) "-helper" ""
  | EmptyString => EmptyString
  end.

Definition helperRoles (g : Guild) : list HelperRole :=
  List.map
    (λ r, {| hr_id := role_id r; hr_role := role_name r;
             hr_subject := subject_label (role_name r) |})
    (List.filter (λ r, Js.endsWith (role_name r) "-helper") (roles_cache g)).

(** The predicate of the [find] in [getCategoryId]. *)
Definition is_category (c : Channel) : bool :=
  bool_decide (ch_type c = CATEGORY_CHANNEL_TYPE)
  && String.eqb (ch_name c) CATEGORY_CHANNEL_NAME.

Definition getCategoryId : Async Snowflake :=
  self ← this;
  match categoryChannelId self with
  | Some id => mret id
  | None =>
      w ← world;
      match List.find is_category (channels_cache (guild w)) with
      | None =>
          newCategory ← guild_channels_create
            CATEGORY_CHANNEL_NAME CATEGORY_CHANNEL_TYPE None;
          set_categoryChannelId (ch_id newCategory);;
          mret (ch_id newCategory)
      | Some category =>
          set_categoryChannelId (ch_id category);;
          mret (ch_id category)
      end
  end.

(** The field [categoryChannelId], once set, holds the identifier of the
    category that the [find] of [getCategoryId] comes upon.  A new object
    satisfies this, and every method keeps it. *)
Definition memo_consistent (st : State) : Prop :=
  ∀ id, categoryChannelId st.1 = Some id →
    ∃ c, List.find is_category (channels_cache (guild st.2)) = Some c
         ∧ ch_id c = id.

(** Resolutions of the category one after the other, each on the object of
    the one before ([None]) or on a new object made for another interaction
    ([Some i]). *)
Fixpoint resolutions (objects : list (option Interaction)) (st : State)
  : list (Outcome Snowflake) * State :=
  match objects with
  | [] => ([], st)
  | o :: objects' =>
      let st0 := match o with
                 | Some i => (constructor i, st.2)
                 | None => st
                 end in
      let '(r, st1) := getCategoryId st0 in
      let '(rs, st2) := resolutions objects' st1 in
      (r :: rs, st2)
  end.

(** What a run of resolutions leaves behind: every identifier returned is
    that of the category the cache holds at the end, and the cache has gained
    one category, when it had none, or nothing. *)
Definition singleton_run (st : State) (rs : list (Outcome Snowflake))
    (st' : State) : Prop :=
  (∀ id, Returned id ∈ rs →
     ∃ c, List.find is_category (channels_cache (guild st'.2)) = Some c
          ∧ ch_id c = id)
  ∧ (channels_cache (guild st'.2) = channels_cache (guild st.2)
     ∨ List.find is_category (channels_cache (guild st.2)) = None
       ∧ ∃ c, is_category c = true
              ∧ channels_cache (guild st'.2)
                = (channels_cache (guild st.2) ++ [c])%list).

Definition createSubjectForum (subjectName emoji : string) : Async Channel :=
  categoryId ← getCategoryId;
  guild_channels_create (emoji +:+ "-" +:+ subjectName) FORUM_CHANNEL_TYPE
    (Some categoryId).

Definition createSubjectRole (subjectName color : string) : Async Role :=
  guild_roles_create (toLowerCase subjectName +:+ "-helper") color.

(** The predicate of the [filter] in [isSubjectNameUnique]. *)
Definition names_subject (categoryId : Snowflake) (subjectName : string)
    (c : Channel) : bool :=
  bool_decide (ch_parentId c = Some categoryId)
  && Js.includes (ch_name c) (toLowerCase subjectName).

Definition isSubjectNameUnique (subjectName : string) : Async bool :=
  categoryId ← getCategoryId;
  w ← world;
  let channels :=
    Collection_values
      (List.filter (names_subject categoryId subjectName)
         (channels_cache (guild w))) in
  mret (Js.not_number (Js.fn_length channels)).

(** The duplicate test as the documentation words it: some cached channel
    under the category has a name that contains the candidate name, letter
    case set aside. *)
Definition name_taken (g : Guild) (categoryId : Snowflake)
    (subjectName : string) : bool :=
  existsb
    (λ c, bool_decide (ch_parentId c = Some categoryId)
          && Js.includes (toLowerCase (ch_name c)) (toLowerCase subjectName))
    (channels_cache g).

(** [optionsObject], by its own properties: one per option name, a later
    option of the same name overwriting an earlier one.  The object is a
    plain one, so an assignment to [__proto__] goes to the setter it inherits,
    which ignores the values an option can have (strings, numbers, booleans)
    and makes no property. *)
Definition optionsObject (options : list CommandOption)
  : gmap string OptionValue :=
  foldl
    (λ o option,
       if String.eqb (opt_name option) "__proto__" then o
       else <[opt_name option := opt_value option]> o)
    ∅ options.

Definition getOptions : Async HelperOptions :=
  self ← this;
  let options := int_options (interaction self) in
  match helperSchema_validate (optionsObject options) with
  | inr cleanedSchema => mret cleanedSchema
  | inl message =>
      send (InteractionReply ("Error: " +:+ message) true []);;
      throw (ValidationError message)
  end.

Definition handleCreateSubject : Async () :=
  options ← getOptions;
  unique ← isSubjectNameUnique (name options);
  (if negb unique then
     send (InteractionReply "Subject already exists!" true []);;
     throw (JsError "Subject already exists!")
   else mret ());;
  forum ← createSubjectForum (name options) (emoji options);
  role ← createSubjectRole (name options) (color options);
  w ← world;
  send (InteractionReply
          ("Subject " +:+ channel_url (guild w) forum +:+ " and role **"
           +:+ role_name role +:+ "** created!") false []).

Definition subjectSelect (roles : list HelperRole) : StringSelectMenu :=
  {| sm_custom_id := SELECT_HELPER_ROLES_ID;
     sm_placeholder := "Select a subject to become a helper";
     sm_min_values := 0;
     sm_options :=
       List.map (λ r, {| so_label := hr_subject r; so_value := hr_id r |})
         roles |}.

(** [(i) => i.user.id === this.interaction.user.id] *)
Definition collectorFilter (self : SubjectHelperService)
    (i : SelectInteraction) : bool :=
  bool_decide (sel_user i = user_id (int_user (interaction self))).

(** [(r) => r.id === selectedSubjects.values[0]]; [values[0]] is undefined
    when nothing is selected, and then equal to no identifier. *)
Definition is_selected (selectedSubjects : SelectInteraction)
    (r : HelperRole) : bool :=
  bool_decide (Some (hr_id r) = head (sel_values selectedSubjects)).

(** The reply that shows the menu. *)
Definition prompt (g : Guild) : ApiCall :=
  InteractionReply "Please select one or more subjects" true
    [subjectSelect (helperRoles g)].

Definition already_held (selectedRole : HelperRole) : ApiCall :=
  ComponentReply
    ("You already have the role " +:+ hr_role selectedRole
     +:+ "! So I won't add it again.") true.

Definition congratulation (selectedRole : HelperRole) : ApiCall :=
  ComponentReply
    ("Congrats on becoming a helper in " +:+ hr_subject selectedRole
     +:+ "! Thanks for helping out the community <3."
     +:+ String (ascii_of_N 10) EmptyString
     +:+ "You have been promoted to " +:+ hr_role selectedRole
     +:+ " and will be pinged whenever someone posts in the "
     +:+ hr_subject selectedRole +:+ " forum channel.") true.

Definition announcement (self : SubjectHelperService)
    (selectedRole : HelperRole) : ApiCall :=
  ComponentFollowUp
    ("Congrats to " +:+ user_displayName (int_user (interaction self))
     +:+ " for becoming a helper in " +:+ hr_subject selectedRole +:+ "!").

(** [incoming]: the component interactions that arrive on the prompt during
    the 10000 ms the handler waits. *)
Definition handleBecomeHelper (incoming : list SelectInteraction) : Async () :=
  self ← this;
  w ← world;
  let helperRoles := helperRoles (guild w) in
  send (prompt (guild w));;
  try_catch
    (selectedSubjects ← awaitMessageComponent (collectorFilter self) incoming;
     send InteractionDeleteReply;;
     match List.find (is_selected selectedSubjects) helperRoles with
     | None => throw no_role
     | Some selectedRole =>
         let member := user_id (int_user (interaction self)) in
         w' ← world;
         if bool_decide (hr_id selectedRole ∈ roles_of (guild w') member) then
           send (already_held selectedRole)
         else
           member_roles_add member (hr_id selectedRole);;
           send (congratulation selectedRole);;
           send (announcement self selectedRole)
     end)
    (λ err, throw err).

(** The timeout as the documentation words it: when no selection of the
    requester arrives in the window, the flow ends without an error and no
    membership has changed. *)
Definition timeout_ends_cleanly (incoming : list SelectInteraction)
    (st : State) : Prop :=
  List.find (collectorFilter st.1) incoming = None →
  ∃ st', handleBecomeHelper incoming st = (Returned (), st')
         ∧ member_roles (guild st'.2) = member_roles (guild st.2).

(** ** SlaveWhipperService

    The class extends [InteractionService], which gives it
    [this.interaction]; that is the one field of the object it reads. *)

(** [utils/isHelperThread] and [utils/threadToHelperRole] are modules of the
    repository that the service imports; they are parameters here.  The
    second one may find no role for the thread. *)
Variable isHelperThread : Channel → bool.
Variable helperThreadToRoleName : Channel → option Role.

Definition refusal : string := "Please don't whip the slaves outside of threads".

Definition handleWhipSlaves : Async () :=
  self ← this;
  send InteractionDeferReply;;
  let thread := int_channel (interaction self) in
  let role := helperThreadToRoleName thread in
  if Js.truthy_object isHelperThread then
    match role with
    | Some role =>
        send (InteractionEditReply
                ("<@&" +:+ snowflake_string (role_id role)
                 +:+ ">, get to work! 𓀓𓀝"))
    | None => throw no_role
    end
  else
    send (InteractionEditReply refusal).

(** ** Strings *)

Lemma endsWith_helper_nonempty (s : string) :
  Js.endsWith s "-helper" = true → s ≠ EmptyString.
Proof. intros H ->. discriminate H. Qed.

(** Every element of [helperRoles] comes from a role whose name is not
    empty, so [subject_label] is never asked for [r.name[0]] of an empty
    name. *)
Lemma helperRoles_named (g : Guild) (r : HelperRole) :
  r ∈ helperRoles g → hr_role r ≠ EmptyString.
Proof.
  unfold helperRoles. intros H.
  apply list_elem_of_In, in_map_iff in H as (role & <- & Hin).
  apply filter_In in Hin as [_ Hin]. simpl.
  by apply endsWith_helper_nonempty.
Qed.

(** ** Sequencing *)

Lemma bind_returned {A B} (c : Async A) (k : A → Async B) st a st' :
  c st = (Returned a, st') → (c ≫= k) st = k a st'.
Proof. intros E. unfold mbind, Async_bind. by rewrite E. Qed.

Lemma bind_thrown {A B} (c : Async A) (k : A → Async B) st e st' :
  c st = (Thrown e, st') → (c ≫= k) st = (Thrown e, st').
Proof. intros E. unfold mbind, Async_bind. by rewrite E. Qed.

Lemma find_app_found {A} (p : A → bool) (l l' : list A) (x : A) :
  List.find p l = Some x → List.find p (l ++ l') = Some x.
Proof.
  induction l as [|y l IH]; simpl; [done|].
  destruct (p y); [done|]. apply IH.
Qed.

Lemma find_snoc_missing {A} (p : A → bool) (l : list A) (x : A) :
  List.find p l = None → p x = true → List.find p (l ++ [x]) = Some x.
Proof.
  induction l as [|y l IH]; simpl; intros Hl Hx.
  - by rewrite Hx.
  - destruct (p y); [done|]. by apply IH.
Qed.

Lemma is_category_new_channel (w : World) :
  is_category
    (new_channel w CATEGORY_CHANNEL_NAME CATEGORY_CHANNEL_TYPE None) = true.
Proof.
  unfold is_category, new_channel; simpl.
  rewrite bool_decide_eq_true_2 by done. by rewrite String.eqb_refl.
Qed.

Lemma getCategoryId_present (st : State) (c : Channel) :
  memo_consistent st →
  List.find is_category (channels_cache (guild st.2)) = Some c →
  getCategoryId st
  = (Returned (ch_id c), (with_categoryChannelId st.1 (ch_id c), st.2)).
Proof.
  destruct st as [[i memo] w]; unfold memo_consistent; simpl. intros Hm Hf.
  unfold getCategoryId, mbind, Async_bind; simpl.
  destruct memo as [id|].
  - destruct (Hm id eq_refl) as (c' & Hf' & <-).
    rewrite Hf in Hf'. by injection Hf' as ->.
  - simpl. by rewrite Hf.
Qed.

Lemma getCategoryId_absent (st : State) :
  memo_consistent st →
  List.find is_category (channels_cache (guild st.2)) = None →
  getCategoryId st
  = let call := ChannelsCreate CATEGORY_CHANNEL_NAME CATEGORY_CHANNEL_TYPE None in
    if accepts st.2 then
      let c := new_channel (sent st.2 call)
                 CATEGORY_CHANNEL_NAME CATEGORY_CHANNEL_TYPE None in
      (Returned (ch_id c),
       (with_categoryChannelId st.1 (ch_id c), with_channel (sent st.2 call) c))
    else (Thrown (DiscordAPIError call), (st.1, sent st.2 call)).
Proof.
  destruct st as [[i memo] w]; unfold memo_consistent; simpl. intros Hm Hf.
  destruct memo as [id|].
  { destruct (Hm id eq_refl) as (c' & Hf' & _). by rewrite Hf in Hf'. }
  unfold getCategoryId, mbind, Async_bind; simpl. rewrite Hf.
  unfold guild_channels_create, request; simpl.
  by destruct (accepts w).
Qed.

Lemma memo_consistent_new (i : Interaction) (w : World) :
  memo_consistent (constructor i, w).
Proof. intros id Hid. discriminate Hid. Qed.

Lemma memo_consistent_set (self : SubjectHelperService) (w : World) (c : Channel) :
  List.find is_category (channels_cache (guild w)) = Some c →
  memo_consistent (with_categoryChannelId self (ch_id c), w).
Proof. intros Hf id [= <-]. by exists c. Qed.

Lemma resolutions_present (objects : list (option Interaction)) (st : State)
    (c : Channel) :
  memo_consistent st →
  List.find is_category (channels_cache (guild st.2)) = Some c →
  ∃ self, resolutions objects st
          = (replicate (length objects) (Returned (ch_id c)), (self, st.2)).
Proof.
  revert st. induction objects as [|o objects IH]; intros st Hm Hf.
  - exists st.1. by destruct st.
  - cbn [resolutions].
    set (st0 := match o with Some i => (constructor i, st.2) | None => st end).
    assert (Hw : st0.2 = st.2) by (by destruct o).
    assert (Hm0 : memo_consistent st0)
      by (destruct o; [apply memo_consistent_new | done]).
    rewrite (getCategoryId_present st0 c Hm0) by (by rewrite Hw).
    destruct (IH (with_categoryChannelId st0.1 (ch_id c), st0.2)) as [self E].
    { apply memo_consistent_set. by rewrite Hw. }
    { simpl. by rewrite Hw. }
    rewrite E. exists self. simpl. by rewrite Hw.
Qed.

Lemma resolutions_singleton (objects : list (option Interaction)) (st : State) :
  memo_consistent st →
  singleton_run st (resolutions objects st).1 (resolutions objects st).2.
Proof.
  revert st. induction objects as [|o objects IH]; intros st Hm.
  { split; simpl; [intros id Hin; by apply elem_of_nil in Hin | by left]. }
  destruct (List.find is_category (channels_cache (guild st.2))) as [c|] eqn:Hf.
  { destruct (resolutions_present (o :: objects) st c Hm Hf) as [self ->].
    split; [|by left].
    intros id Hin. cbn [fst] in Hin.
    apply elem_of_replicate in Hin as [[= ->] _].
    by exists c. }
  cbn [resolutions].
  set (st0 := match o with Some i => (constructor i, st.2) | None => st end).
  assert (Hw : st0.2 = st.2) by (by destruct o).
  assert (Hm0 : memo_consistent st0)
    by (destruct o; [apply memo_consistent_new | done]).
  rewrite (getCategoryId_absent st0 Hm0) by (by rewrite Hw).
  cbv zeta. rewrite Hw. destruct (accepts st.2).
  - set (call := ChannelsCreate CATEGORY_CHANNEL_NAME CATEGORY_CHANNEL_TYPE None).
    set (c := new_channel (sent st.2 call)
                CATEGORY_CHANNEL_NAME CATEGORY_CHANNEL_TYPE None).
    set (w1 := with_channel (sent st.2 call) c).
    assert (Hc : is_category c = true) by apply is_category_new_channel.
    assert (Hf1 : List.find is_category (channels_cache (guild w1)) = Some c)
      by (by apply find_snoc_missing).
    destruct (resolutions_present objects
                (with_categoryChannelId st0.1 (ch_id c), w1) c) as [self ->].
    { by apply memo_consistent_set. }
    { done. }
    split; simpl.
    + intros id Hin. exists c. split; [done|].
      apply elem_of_cons in Hin as [[= ->]|Hin]; [done|].
      by apply elem_of_replicate in Hin as [[= ->] _].
    + right. split; [done|]. by exists c.
  - set (st1 := (st0.1, sent st.2 _)).
    assert (Hm1 : memo_consistent st1).
    { intros id Hid. destruct (Hm0 id Hid) as (c & Hc & _).
      rewrite Hw in Hc. by rewrite Hf in Hc. }
    specialize (IH st1 Hm1). destruct (resolutions objects st1) as [rs st'].
    destruct IH as [Hids Hch]. split; simpl in *.
    + intros id Hin. apply elem_of_cons in Hin as [[=]|Hin]. by apply Hids.
    + done.
Qed.

Lemma getCategoryId_memo (self : SubjectHelperService) (id : Snowflake)
    (w : World) :
  getCategoryId (with_categoryChannelId self id, w)
  = (Returned id, (with_categoryChannelId self id, w)).
Proof. reflexivity. Qed.

(** C7.  On an object whose memo field is consistent (a new object is),
    [getCategoryId] returns the identifier of the cached channel that has the
    category type and the category name, and sends nothing; only when the
    cache has no such channel does it ask for one of that name and type, and
    returns the identifier of the channel created (or throws when the
    platform rejects the request, leaving the guild as it was).  A resolution
    that follows one that returned [id], on the same object or on a new one,
    returns [id] again and changes nothing.  Over any run of resolutions all
    identifiers returned are the same one, and the cache gains one category,
    when it had none, or no channel at all. *)
Theorem getCategoryId_singleton (st : State)
    (objects : list (option Interaction)) :
  memo_consistent st →
  let call := ChannelsCreate CATEGORY_CHANNEL_NAME CATEGORY_CHANNEL_TYPE None in
  let created :=
    new_channel (sent st.2 call) CATEGORY_CHANNEL_NAME CATEGORY_CHANNEL_TYPE
      None in
  (∀ c, List.find is_category (channels_cache (guild st.2)) = Some c →
     getCategoryId st
     = (Returned (ch_id c), (with_categoryChannelId st.1 (ch_id c), st.2)))
  ∧ (List.find is_category (channels_cache (guild st.2)) = None →
     getCategoryId st
     = if accepts st.2 then
         (Returned (ch_id created),
          (with_categoryChannelId st.1 (ch_id created),
           with_channel (sent st.2 call) created))
       else (Thrown (DiscordAPIError call), (st.1, sent st.2 call)))
  ∧ (∀ id st1, getCategoryId st = (Returned id, st1) →
     getCategoryId st1 = (Returned id, st1)
     ∧ ∀ i, ∃ self,
         getCategoryId (constructor i, st1.2) = (Returned id, (self, st1.2)))
  ∧ (∀ id id',
       Returned id ∈ (resolutions objects st).1 →
       Returned id' ∈ (resolutions objects st).1 → id = id')
  ∧ (channels_cache (guild (resolutions objects st).2.2)
     = channels_cache (guild st.2)
     ∨ List.find is_category (channels_cache (guild st.2)) = None
       ∧ ∃ c, is_category c = true
              ∧ ch_name c = CATEGORY_CHANNEL_NAME
              ∧ ch_type c = CATEGORY_CHANNEL_TYPE
              ∧ channels_cache (guild (resolutions objects st).2.2)
                = (channels_cache (guild st.2) ++ [c])%list).
Proof.
  intros Hm call created.
  split; [intros c Hf; by apply getCategoryId_present|].
  split; [intros Hf; by rewrite getCategoryId_absent|].
  split.
  { intros id st1 E.
    destruct (List.find is_category (channels_cache (guild st.2)))
      as [c|] eqn:Hf.
    - rewrite (getCategoryId_present st c Hm Hf) in E.
      injection E as <- <-. split; [apply getCategoryId_memo|].
      intros i. eexists.
      by apply (getCategoryId_present (constructor i, st.2) c);
        [apply memo_consistent_new|].
    - rewrite (getCategoryId_absent st Hm Hf) in E. cbv zeta in E.
      destruct (accepts st.2); [|discriminate E].
      injection E as <- <-. split; [apply getCategoryId_memo|].
      intros i. eexists.
      apply (getCategoryId_present (constructor i, _) created);
        [apply memo_consistent_new|].
      simpl. apply find_snoc_missing; [done|apply is_category_new_channel]. }
  destruct (resolutions_singleton objects st Hm) as [Hids Hch].
  split.
  - intros id id' Hin Hin'.
    destruct (Hids id Hin) as (c & Hc & <-).
    destruct (Hids id' Hin') as (c' & Hc' & <-).
    rewrite Hc in Hc'. by injection Hc' as ->.
  - destruct Hch as [Hch|[Hf (c & Hc & Hch)]]; [by left|right].
    split; [done|]. exists c. split; [done|].
    unfold is_category in Hc. apply andb_true_iff in Hc as [Ht Hn].
    apply bool_decide_eq_true in Ht. apply String.eqb_eq in Hn. done.
Qed.

(** ** Creating a subject *)

Lemma accepts_no_fault (w : World) : true ∉ faults w → accepts w = true.
Proof.
  unfold accepts. destruct (faults w) as [|[] f]; [done| |done].
  intros H. exfalso. apply H. by left.
Qed.

Lemma tail_no_fault (f : list bool) : true ∉ f → true ∉ tail f.
Proof.
  destruct f as [|b f]; [done|]. simpl. intros H Hin. apply H. by right.
Qed.

Lemma guild_channels_create_accepted (subjectName : string) (type : ChannelType)
    (parent : option Snowflake) (st : State) :
  accepts st.2 = true →
  guild_channels_create subjectName type parent st
  = let w := sent st.2 (ChannelsCreate subjectName type parent) in
    let c := new_channel w subjectName type parent in
    (Returned c, (st.1, with_channel w c)).
Proof. intros H. unfold guild_channels_create, request. by rewrite H. Qed.

Lemma guild_roles_create_accepted (roleName roleColor : string) (st : State) :
  accepts st.2 = true →
  guild_roles_create roleName roleColor st
  = let w := sent st.2 (RolesCreate roleName roleColor) in
    let r := new_role w roleName roleColor in
    (Returned r, (st.1, with_role w r)).
Proof. intros H. unfold guild_roles_create, request. by rewrite H. Qed.

Lemma request_inv {A} (c : ApiCall) (apply : World → A * World) (st : State)
    (r : Outcome A) (st' : State) :
  request c apply st = (r, st') →
  (accepts st.2 = true
   ∧ r = Returned (apply (sent st.2 c)).1
   ∧ st' = (st.1, (apply (sent st.2 c)).2))
  ∨ (accepts st.2 = false
     ∧ r = Thrown (DiscordAPIError c) ∧ st' = (st.1, sent st.2 c)).
Proof.
  unfold request. destruct (accepts st.2).
  - destruct (apply (sent st.2 c)) as [a w]. intros [= <- <-]. by left.
  - intros [= <- <-]. by right.
Qed.

Lemma getOptions_valid (st : State) (options : HelperOptions) :
  helperSchema_validate (optionsObject (int_options (interaction st.1)))
  = inr options →
  getOptions st = (Returned options, st).
Proof.
  intros H. unfold getOptions, mbind, Async_bind, this. simpl.
  rewrite H. by destruct st.
Qed.

Lemma getOptions_invalid (st : State) (message : string) :
  helperSchema_validate (optionsObject (int_options (interaction st.1)))
  = inl message →
  getOptions st
  = (Thrown (ValidationError message),
     (st.1, log st.2 (InteractionReply ("Error: " +:+ message) true []))).
Proof.
  intros H. unfold getOptions, mbind, Async_bind, this. simpl. by rewrite H.
Qed.

(** The uniqueness test gives the answer of the category resolution when
    that throws, and [true] in every other case: the [length] it negates is
    that of the method [values], not of the channels found. *)
Lemma isSubjectNameUnique_eq (subjectName : string) (st : State) :
  isSubjectNameUnique subjectName st
  = match getCategoryId st with
    | (Returned _, st1) => (Returned true, st1)
    | (Thrown e, st1) => (Thrown e, st1)
    end.
Proof.
  unfold isSubjectNameUnique, mbind, Async_bind.
  by destruct (getCategoryId st) as [[id|e] st1].
Qed.

(** C8.  When [helperSchema.validate] rejects the options, the handler sends
    one request, the ephemeral reply that carries the error's message, and
    throws the validation error; the guild (channels, roles, memberships) is
    as it was, and so is the memo field of the object. *)
Theorem handleCreateSubject_invalid (st : State) (message : string) :
  helperSchema_validate (optionsObject (int_options (interaction st.1)))
  = inl message →
  handleCreateSubject st
  = (Thrown (ValidationError message),
     (st.1, log st.2 (InteractionReply ("Error: " +:+ message) true [])))
  ∧ guild (handleCreateSubject st).2.2 = guild st.2
  ∧ trace (handleCreateSubject st).2.2
    = (trace st.2 ++ [InteractionReply ("Error: " +:+ message) true []])%list.
Proof.
  intros H.
  assert (E : handleCreateSubject st
              = (Thrown (ValidationError message),
                 (st.1, log st.2
                          (InteractionReply ("Error: " +:+ message) true [])))).
  { unfold handleCreateSubject.
    by rewrite (bind_thrown _ _ _ _ _ (getOptions_invalid st message H)). }
  by rewrite E.
Qed.

Lemma createSubjectForum_inv (subjectName emojiText : string) (st : State)
    (forum : Channel) (st' : State) :
  createSubjectForum subjectName emojiText st = (Returned forum, st') →
  ∃ categoryId st1,
    getCategoryId st = (Returned categoryId, st1)
    ∧ forum = new_channel st1.2 (emojiText +:+ "-" +:+ subjectName)
                FORUM_CHANNEL_TYPE (Some categoryId)
    ∧ channels_cache (guild st'.2)
      = (channels_cache (guild st1.2) ++ [forum])%list
    ∧ roles_cache (guild st'.2) = roles_cache (guild st1.2).
Proof.
  unfold createSubjectForum, mbind, Async_bind.
  destruct (getCategoryId st) as [[categoryId|e] st1]; [|done].
  intros H. exists categoryId, st1. split; [done|].
  apply request_inv in H as [(_ & [= ->] & ->)|(_ & [=] & _)]. done.
Qed.

(** C9.  When the options are valid, the forum channel has been created and
    the creation of the role is then rejected, the handler throws that very
    error and stops there: the channel is still in the cache, the guild is
    the one the channel creation left, and the rejected role request is the
    last request sent (no reply, and no request that would undo the channel,
    follows it). *)
Theorem handleCreateSubject_no_rollback (st : State) (options : HelperOptions)
    (unique : bool) (st1 : State) (forum : Channel) (st2 : State) (e : Error)
    (st3 : State) :
  helperSchema_validate (optionsObject (int_options (interaction st.1)))
  = inr options →
  isSubjectNameUnique (name options) st = (Returned unique, st1) →
  createSubjectForum (name options) (emoji options) st1
  = (Returned forum, st2) →
  createSubjectRole (name options) (color options) st2 = (Thrown e, st3) →
  let call :=
    RolesCreate (toLowerCase (name options) +:+ "-helper") (color options) in
  handleCreateSubject st = (Thrown e, st3)
  ∧ e = DiscordAPIError call
  ∧ forum ∈ channels_cache (guild st3.2)
  ∧ guild st3.2 = guild st2.2
  ∧ trace st3.2 = (trace st2.2 ++ [call])%list.
Proof.
  intros Hv Hu Hf Hr call.
  assert (unique = true) as ->.
  { rewrite isSubjectNameUnique_eq in Hu.
    destruct (getCategoryId st) as [[id|e'] st']; by injection Hu. }
  split.
  { unfold handleCreateSubject.
    rewrite (bind_returned _ _ _ _ _ (getOptions_valid st options Hv)).
    rewrite (bind_returned _ _ _ _ _ Hu). simpl negb. cbv iota.
    rewrite (bind_returned (mret ()) _ st1 () st1 eq_refl).
    rewrite (bind_returned _ _ _ _ _ Hf).
    by rewrite (bind_thrown _ _ _ _ _ Hr). }
  apply createSubjectForum_inv in Hf as (categoryId & st1' & _ & _ & Hch & _).
  apply request_inv in Hr as [(_ & [=] & _)|(_ & [= ->] & ->)].
  split; [done|]. split; [|done]. simpl. rewrite Hch.
  apply elem_of_app. right. by left.
Qed.

Lemma getCategoryId_hit (st : State) (id : Snowflake) :
  categoryChannelId st.1 = Some id → getCategoryId st = (Returned id, st).
Proof.
  destruct st as [[i memo] w]; simpl. intros ->. reflexivity.
Qed.

Lemma createSubjectForum_accepted (subjectName emojiText : string)
    (st : State) (categoryId : Snowflake) :
  categoryChannelId st.1 = Some categoryId →
  accepts st.2 = true →
  createSubjectForum subjectName emojiText st
  = let forumName := emojiText +:+ "-" +:+ subjectName in
    let w := sent st.2
               (ChannelsCreate forumName FORUM_CHANNEL_TYPE (Some categoryId)) in
    let forum := new_channel w forumName FORUM_CHANNEL_TYPE (Some categoryId) in
    (Returned forum, (st.1, with_channel w forum)).
Proof.
  intros Hmemo Ha. unfold createSubjectForum.
  rewrite (bind_returned _ _ _ _ _ (getCategoryId_hit st categoryId Hmemo)).
  by apply guild_channels_create_accepted.
Qed.

(** The handler from the point where the category is resolved, when the
    platform rejects nothing. *)
Lemma handleCreateSubject_resolved (st : State) (options : HelperOptions)
    (categoryId : Snowflake) (st1 : State) :
  helperSchema_validate (optionsObject (int_options (interaction st.1)))
  = inr options →
  getCategoryId st = (Returned categoryId, st1) →
  categoryChannelId st1.1 = Some categoryId →
  true ∉ faults st1.2 →
  handleCreateSubject st
  = let forumName := emoji options +:+ "-" +:+ name options in
    let roleName := toLowerCase (name options) +:+ "-helper" in
    let w2 := sent st1.2
                (ChannelsCreate forumName FORUM_CHANNEL_TYPE (Some categoryId)) in
    let forum := new_channel w2 forumName FORUM_CHANNEL_TYPE (Some categoryId) in
    let w3 := sent (with_channel w2 forum)
                (RolesCreate roleName (color options)) in
    let role := new_role w3 roleName (color options) in
    let w4 := with_role w3 role in
    (Returned (),
     (st1.1,
      log w4
        (InteractionReply
           ("Subject " +:+ channel_url (guild w4) forum +:+ " and role **"
            +:+ role_name role +:+ "** created!") false []))).
Proof.
  intros Hv Hc Hmemo Hfaults.
  unfold handleCreateSubject.
  rewrite (bind_returned _ _ _ _ _ (getOptions_valid st options Hv)).
  assert (Hu : isSubjectNameUnique (name options) st = (Returned true, st1))
    by (by rewrite isSubjectNameUnique_eq, Hc).
  rewrite (bind_returned _ _ _ _ _ Hu). simpl negb. cbv iota.
  rewrite (bind_returned (mret ()) _ st1 () st1 eq_refl).
  rewrite (bind_returned _ _ _ _ _
             (createSubjectForum_accepted _ _ st1 categoryId Hmemo
                (accepts_no_fault _ Hfaults))).
  cbv zeta. unfold createSubjectRole.
  erewrite bind_returned; cycle 1.
  { apply guild_roles_create_accepted, accepts_no_fault. simpl.
    by apply tail_no_fault. }
  reflexivity.
Qed.

(** C4.  With valid options, no cached channel under the category whose name
    contains the candidate name (letter case set aside), and a platform that
    rejects no request, [handleCreateSubject] returns, having created one
    forum channel named [emoji-name] whose parent is the category and one
    role named [lowercase(name)-helper] of the given color, the lower case
    being the one of [String.prototype.toLowerCase] for every name; the
    category is the one [getCategoryId] finds, created first when the cache
    had none.  The cache of channels and the cache of roles gain exactly
    these, memberships are untouched, and the last request is the public
    reply, which carries the URL of the forum channel and the name of the
    role. *)
Theorem handleCreateSubject_creates (st : State) (options : HelperOptions) :
  memo_consistent st →
  helperSchema_validate (optionsObject (int_options (interaction st.1)))
  = inr options →
  (∀ category,
     List.find is_category (channels_cache (guild st.2)) = Some category →
     name_taken (guild st.2) (ch_id category) (name options) = false) →
  true ∉ faults st.2 →
  ∃ (category forum : Channel) (role : Role) (st' : State),
    handleCreateSubject st = (Returned (), st')
    ∧ is_category category = true
    ∧ ch_name forum = emoji options +:+ "-" +:+ name options
    ∧ ch_type forum = FORUM_CHANNEL_TYPE
    ∧ ch_parentId forum = Some (ch_id category)
    ∧ role_name role = toLowerCase (name options) +:+ "-helper"
    ∧ role_color role = color options
    ∧ channels_cache (guild st'.2)
      = (channels_cache (guild st.2)
         ++ match List.find is_category (channels_cache (guild st.2)) with
            | Some _ => []
            | None => [category]
            end
         ++ [forum])%list
    ∧ List.find is_category (channels_cache (guild st'.2)) = Some category
    ∧ roles_cache (guild st'.2) = (roles_cache (guild st.2) ++ [role])%list
    ∧ member_roles (guild st'.2) = member_roles (guild st.2)
    ∧ trace st'.2
      = (trace st.2
         ++ match List.find is_category (channels_cache (guild st.2)) with
            | Some _ => []
            | None =>
                [ChannelsCreate CATEGORY_CHANNEL_NAME CATEGORY_CHANNEL_TYPE None]
            end
         ++ [ChannelsCreate (ch_name forum) FORUM_CHANNEL_TYPE
               (Some (ch_id category));
             RolesCreate (role_name role) (color options);
             InteractionReply
               ("Subject " +:+ channel_url (guild st'.2) forum
                +:+ " and role **" +:+ role_name role +:+ "** created!")
               false []])%list.
Proof.
  intros Hm Hv _ Hfaults.
  destruct (List.find is_category (channels_cache (guild st.2)))
    as [category|] eqn:Hf.
  - pose proof (getCategoryId_present st category Hm Hf) as Hc.
    pose proof (handleCreateSubject_resolved st options _ _ Hv Hc eq_refl
                  Hfaults) as E.
    cbv zeta in E.
    eexists category,
      {| ch_id := next_id st.2;
         ch_name := emoji options +:+ "-" +:+ name options;
         ch_type := FORUM_CHANNEL_TYPE;
         ch_parentId := Some (ch_id category) |},
      {| role_id := N.succ (next_id st.2);
         role_name := toLowerCase (name options) +:+ "-helper";
         role_color := color options |}, _.
    split; [exact E|]. simpl.
    split; [exact (proj2 (find_some _ _ Hf))|].
    do 5 (split; [reflexivity|]).
    split; [by rewrite <- ?List.app_assoc|].
    split; [by apply find_app_found|].
    do 2 (split; [reflexivity|]).
    by rewrite <- ?List.app_assoc.
  - pose proof (getCategoryId_absent st Hm Hf) as Hc. cbv zeta in Hc.
    rewrite (accepts_no_fault _ Hfaults) in Hc.
    pose proof (handleCreateSubject_resolved st options _ _ Hv Hc eq_refl
                  (tail_no_fault _ Hfaults)) as E.
    cbv zeta in E.
    eexists (new_channel st.2 CATEGORY_CHANNEL_NAME CATEGORY_CHANNEL_TYPE None),
      {| ch_id := N.succ (next_id st.2);
         ch_name := emoji options +:+ "-" +:+ name options;
         ch_type := FORUM_CHANNEL_TYPE;
         ch_parentId := Some (next_id st.2) |},
      {| role_id := N.succ (N.succ (next_id st.2));
         role_name := toLowerCase (name options) +:+ "-helper";
         role_color := color options |}, _.
    split; [exact E|]. simpl.
    split; [apply is_category_new_channel|].
    do 5 (split; [reflexivity|]).
    split; [by rewrite <- ?List.app_assoc|].
    split.
    { apply find_app_found, find_snoc_missing; [done|].
      apply is_category_new_channel. }
    do 2 (split; [reflexivity|]).
    by rewrite <- ?List.app_assoc.
Qed.

(** ** Becoming a helper *)

Lemma try_catch_rethrow {A} (body : Async A) (st : State) :
  try_catch body (λ err, throw err) st = body st.
Proof. unfold try_catch, throw. by destruct (body st) as [[a|e] st']. Qed.

(** The handler, case by case. *)
Lemma handleBecomeHelper_eq (incoming : list SelectInteraction) (st : State) :
  handleBecomeHelper incoming st
  = let member := user_id (int_user (interaction st.1)) in
    let w1 := log st.2 (prompt (guild st.2)) in
    match List.find (collectorFilter st.1) incoming with
    | None => (Thrown timeout, (st.1, w1))
    | Some selectedSubjects =>
        let w2 := log w1 InteractionDeleteReply in
        match
          List.find (is_selected selectedSubjects) (helperRoles (guild st.2))
        with
        | None => (Thrown no_role, (st.1, w2))
        | Some selectedRole =>
            if bool_decide (hr_id selectedRole ∈ roles_of (guild st.2) member)
            then (Returned (), (st.1, log w2 (already_held selectedRole)))
            else
              let call := MemberRolesAdd member (hr_id selectedRole) in
              if accepts st.2 then
                (Returned (),
                 (st.1,
                  log (log (with_grant (sent w2 call) member
                              (hr_id selectedRole))
                         (congratulation selectedRole))
                    (announcement st.1 selectedRole)))
              else (Thrown (DiscordAPIError call), (st.1, sent w2 call))
        end
    end.
Proof.
  destruct st as [self w]. unfold handleBecomeHelper, mbind, Async_bind.
  simpl. rewrite try_catch_rethrow. unfold awaitMessageComponent.
  destruct (List.find (collectorFilter self) incoming) as [sel|]; [|done].
  simpl.
  destruct (List.find (is_selected sel) (helperRoles (guild w)))
    as [role|]; [|done].
  simpl. case_bool_decide; [done|].
  unfold member_roles_add, request, accepts. simpl.
  by destruct (faults w) as [|[] f].
Qed.

Lemma find_foreign {A} (p : A → bool) (before after : list A) (x : A) :
  p x = false →
  List.find p (before ++ x :: after) = List.find p (before ++ after).
Proof.
  intros Hx. induction before as [|y before IH]; simpl.
  - by rewrite Hx.
  - by rewrite IH.
Qed.

Lemma find_impossible {A} (p : A → bool) (l : list A) :
  (∀ x, p x = false) → List.find p l = None.
Proof.
  intros Hp. induction l as [|y l IH]; simpl; [done|]. by rewrite Hp.
Qed.

(** C2, as the code has it.  When no selection of the requester arrives in
    the window, the handler has sent the menu and nothing else, the guild
    (and so every role membership) is as it was, and the handler ends by
    throwing the collector's time-limit error to its caller: the [catch]
    rethrows it. *)
Theorem handleBecomeHelper_timeout (incoming : list SelectInteraction)
    (st : State) :
  List.find (collectorFilter st.1) incoming = None →
  handleBecomeHelper incoming st
  = (Thrown timeout, (st.1, log st.2 (prompt (guild st.2))))
  ∧ guild (handleBecomeHelper incoming st).2.2 = guild st.2
  ∧ trace (handleBecomeHelper incoming st).2.2
    = (trace st.2 ++ [prompt (guild st.2)])%list.
Proof.
  intros H. rewrite handleBecomeHelper_eq. cbv zeta. by rewrite H.
Qed.

(** C5.  Take the selection the handler collects and the helper role it
    selects.  When the requester holds that role, the handler returns after
    three requests, the menu, the deletion of the menu and the reply that the
    role is already held; no role is added and the guild is as it was.  And
    whenever a run of the handler has returned, the requester holds the role,
    so a second run with the same selection is such a run: it reports the
    role as already held and adds nothing. *)
Theorem handleBecomeHelper_idempotent (incoming : list SelectInteraction)
    (st : State) (selectedSubjects : SelectInteraction)
    (selectedRole : HelperRole) :
  List.find (collectorFilter st.1) incoming = Some selectedSubjects →
  List.find (is_selected selectedSubjects) (helperRoles (guild st.2))
  = Some selectedRole →
  let member := user_id (int_user (interaction st.1)) in
  let reported (s : State) : State :=
    (s.1,
     log (log (log s.2 (prompt (guild s.2))) InteractionDeleteReply)
       (already_held selectedRole)) in
  (hr_id selectedRole ∈ roles_of (guild st.2) member →
   handleBecomeHelper incoming st = (Returned (), reported st)
   ∧ guild (reported st).2 = guild st.2)
  ∧ (∀ st1, handleBecomeHelper incoming st = (Returned (), st1) →
     hr_id selectedRole ∈ roles_of (guild st1.2) member
     ∧ handleBecomeHelper incoming st1 = (Returned (), reported st1)
     ∧ guild (reported st1).2 = guild st1.2).
Proof.
  clear toLowerCase. intros Hsel Hrole member reported.
  assert (Hheld : ∀ s : State,
            s.1 = st.1 →
            roles_cache (guild s.2) = roles_cache (guild st.2) →
            hr_id selectedRole ∈ roles_of (guild s.2) member →
            handleBecomeHelper incoming s = (Returned (), reported s)).
  { intros s Hs Hroles Hin. rewrite handleBecomeHelper_eq. cbv zeta.
    unfold helperRoles. rewrite Hs, Hroles. fold (helperRoles (guild st.2)).
    rewrite Hsel, Hrole. fold member.
    rewrite bool_decide_eq_true_2 by done. unfold reported. by rewrite Hs. }
  split; [intros Hin; split; [by apply Hheld|done]|].
  intros st1 E. rewrite handleBecomeHelper_eq in E. cbv zeta in E.
  rewrite Hsel, Hrole in E. fold member in E.
  assert (Hst1 : st1.1 = st.1
                 ∧ roles_cache (guild st1.2) = roles_cache (guild st.2)
                 ∧ hr_id selectedRole ∈ roles_of (guild st1.2) member).
  { case_bool_decide as Hin.
    - by injection E as <-.
    - destruct (accepts st.2); [|discriminate E]. injection E as <-.
      split; [done|]. split; [done|]. simpl.
      unfold roles_of at 1. simpl. rewrite lookup_insert_eq. simpl.
      set_solver. }
  destruct Hst1 as (Hs & Hroles & Hin).
  split; [done|]. split; [by apply Hheld|done].
Qed.

(** C6.  A selection made by a user other than the requester is ignored:
    with or without it among the arrivals, the handler does the same thing,
    to the same final state (same outcome, same memberships, same
    requests). *)
Theorem handleBecomeHelper_scoped (before after : list SelectInteraction)
    (foreign : SelectInteraction) (st : State) :
  sel_user foreign ≠ user_id (int_user (interaction st.1)) →
  handleBecomeHelper (before ++ foreign :: after) st
  = handleBecomeHelper (before ++ after) st.
Proof.
  intros Hne. rewrite !handleBecomeHelper_eq. cbv zeta.
  rewrite find_foreign; [done|].
  unfold collectorFilter. by rewrite bool_decide_eq_false_2.
Qed.

(** C10.  The menu is built with a minimum of zero values, and when the
    selection the handler collects carries no value, the handler deletes the
    menu and then throws a type error, the one of reading [id] on the
    undefined result of the [find]; it returns nothing and adds no role. *)
Theorem handleBecomeHelper_empty_selection (incoming : list SelectInteraction)
    (st : State) (selectedSubjects : SelectInteraction) :
  List.find (collectorFilter st.1) incoming = Some selectedSubjects →
  sel_values selectedSubjects = [] →
  sm_min_values (subjectSelect (helperRoles (guild st.2))) = 0
  ∧ handleBecomeHelper incoming st
    = (Thrown no_role,
       (st.1, log (log st.2 (prompt (guild st.2))) InteractionDeleteReply))
  ∧ guild (handleBecomeHelper incoming st).2.2 = guild st.2.
Proof.
  intros Hsel Hvalues. split; [done|].
  rewrite handleBecomeHelper_eq. cbv zeta. rewrite Hsel.
  rewrite find_impossible; [done|].
  intros r. unfold is_selected. by rewrite Hvalues.
Qed.

(** ** Whipping the helpers *)

(** The handler never looks at what [isHelperThread] answers: the condition
    of its [if] is the function itself, and that is truthy. *)
Lemma handleWhipSlaves_eq (st : State) :
  handleWhipSlaves st
  = let w1 := log st.2 InteractionDeferReply in
    match helperThreadToRoleName (int_channel (interaction st.1)) with
    | Some role =>
        (Returned (),
         (st.1,
          log w1
            (InteractionEditReply
               ("<@&" +:+ snowflake_string (role_id role)
                +:+ ">, get to work! 𓀓𓀝"))))
    | None => (Thrown no_role, (st.1, w1))
    end.
Proof.
  destruct st as [self w]. unfold handleWhipSlaves, mbind, Async_bind. simpl.
  by destruct (helperThreadToRoleName (int_channel (interaction self))).
Qed.

(** ** The options object *)

Lemma optionsObject_snoc (options : list CommandOption) (o : CommandOption) :
  optionsObject (options ++ [o])
  = if String.eqb (opt_name o) "__proto__" then optionsObject options
    else <[opt_name o := opt_value o]> (optionsObject options).
Proof. unfold optionsObject. by rewrite foldl_app. Qed.

(** X1.  The object that [getOptions] hands to the validator has, under each
    name other than [__proto__], the value of the last option of that name,
    and no property of its own for a name that no option has; under
    [__proto__] it has no property of its own, whatever the options are. *)
Theorem optionsObject_lookup (options : list CommandOption) (key : string) :
  optionsObject options !! key
  = if String.eqb key "__proto__" then None
    else opt_value
           <$> List.find (λ o, String.eqb (opt_name o) key) (rev options).
Proof.
  induction options as [|o options IH] using rev_ind.
  { by destruct (String.eqb key "__proto__"). }
  rewrite optionsObject_snoc, rev_unit. cbn [List.find].
  destruct (String.eqb_spec (opt_name o) key) as [Hkey|Hkey].
  - subst key. destruct (String.eqb (opt_name o) "__proto__"); [done|].
    by rewrite lookup_insert_eq.
  - destruct (String.eqb (opt_name o) "__proto__"); [done|].
    by rewrite lookup_insert_ne.
Qed.

(** ** Helper roles and their labels *)

Lemma upper_lower_ascii (c : ascii) :
  Js.upper_ascii (Js.lower_ascii c) = Js.upper_ascii c.
Proof. by destruct c as [[] [] [] [] [] [] [] []]. Qed.

Lemma hyphen_lower_ascii (c : ascii) :
  Ascii.eqb "-" (Js.lower_ascii c) = Ascii.eqb "-" c.
Proof. by destruct c as [[] [] [] [] [] [] [] []]. Qed.

Lemma includes_hyphen_cons (c : ascii) (s : string) :
  Js.includes (String c s) "-" = Ascii.eqb "-" c || Js.includes s "-".
Proof.
  cbn [Js.includes String.prefix].
  destruct (ascii_dec "-" c) as [<-|Hne]; [by destruct s|].
  destruct (Ascii.eqb_spec "-"%char c); [done|]. done.
Qed.

Lemma includes_hyphen_toLowerCase (s : string) :
  Js.includes (Js.toLowerCase s) "-" = Js.includes s "-".
Proof.
  induction s as [|c s IH]; [done|].
  cbn [Js.toLowerCase]. by rewrite !includes_hyphen_cons, hyphen_lower_ascii, IH.
Qed.

(** Removing the first [-helper] from a name with the suffix gives back the
    part before the suffix, when that part has no hyphen. *)
Lemma replace_helper_suffix (s : string) :
  Js.includes s "-" = false →
  Js.replace (s +:+ "-helper") "-helper" "" = s.
Proof.
  induction s as [|c s IH]; [done|].
  rewrite includes_hyphen_cons. intros H.
  apply orb_false_iff in H as [Hc Hs].
  change (String c s +:+ "-helper") with (String c (s +:+ "-helper")).
  cbn [Js.replace String.prefix].
  destruct (ascii_dec "-" c) as [<-|Hne]; [done|]. by rewrite IH.
Qed.

Lemma endsWith_app (s suffix : string) :
  Js.endsWith (s +:+ suffix) suffix = true.
Proof.
  induction s as [|c s IH].
  - destruct suffix; simpl; [done|]. by rewrite Ascii.eqb_refl, String.eqb_refl.
  - change (String c s +:+ suffix) with (String c (s +:+ suffix)).
    cbn [Js.endsWith]. rewrite IH. apply orb_true_r.
Qed.

Lemma lower_ascii_is_ascii (c : ascii) :
  (N_of_ascii c <? 128)%N = true → (N_of_ascii (Js.lower_ascii c) <? 128)%N = true.
Proof. by destruct c as [[] [] [] [] [] [] [] []]. Qed.

Lemma utf8_length_ascii (c : ascii) :
  (N_of_ascii c <? 128)%N = true → Js.utf8_length c = 1.
Proof. by destruct c as [[] [] [] [] [] [] [] []]. Qed.

Lemma substring_empty (s : string) : String.substring 0 0 s = EmptyString.
Proof. by destruct s. Qed.

(** The label of a role name that starts with an ASCII character and has no
    other hyphen than that of the suffix after it. *)
Lemma subject_label_ascii_first (c : ascii) (tail : string) :
  ascii_case_maps →
  (N_of_ascii c <? 128)%N = true →
  Js.includes tail "-" = false →
  subject_label (String c tail +:+ "-helper") = String (Js.upper_ascii c) tail.
Proof.
  intros [_ Hupper] Hc Htail.
  change (String c tail +:+ "-helper") with (String c (tail +:+ "-helper")).
  unfold subject_label. rewrite (utf8_length_ascii c Hc).
  cbn [Nat.eqb String.substring Js.slice]. rewrite substring_empty.
  rewrite Hupper by (simpl; by rewrite Hc).
  rewrite replace_helper_suffix by done. reflexivity.
Qed.

(** X2.  For a subject name of ASCII characters with no hyphen after the
    first one, the label that the menu derives from the role name that
    [createSubjectRole] derives from the subject name is the subject name
    with its first letter in upper case and the others in lower case. *)
Theorem subject_label_of_created_role (c : ascii) (rest : string) :
  ascii_case_maps →
  Js.is_ascii (String c rest) = true →
  Js.includes rest "-" = false →
  subject_label (toLowerCase (String c rest) +:+ "-helper")
  = String (Js.upper_ascii c) (Js.toLowerCase rest).
Proof.
  intros Hmaps Hascii Hrest. rewrite (proj1 Hmaps) by done.
  cbn [Js.toLowerCase]. cbn [Js.is_ascii] in Hascii.
  apply andb_true_iff in Hascii as [Hc _].
  rewrite subject_label_ascii_first; [by rewrite upper_lower_ascii|done| |].
  - by apply lower_ascii_is_ascii.
  - by rewrite includes_hyphen_toLowerCase.
Qed.

(** X3.  A role that [createSubjectRole] has created for a subject name of
    ASCII characters with no hyphen after the first one is offered by the
    menu of [handleBecomeHelper]: the menu built from the guild has an
    option whose value is the identifier of that role and whose label is the
    subject name, first letter in upper case and the others in lower
    case. *)
Theorem createSubjectRole_offered (c : ascii) (rest roleColor : string)
    (st : State) (role : Role) (st' : State) :
  ascii_case_maps →
  Js.is_ascii (String c rest) = true →
  Js.includes rest "-" = false →
  createSubjectRole (String c rest) roleColor st = (Returned role, st') →
  {| so_label := String (Js.upper_ascii c) (Js.toLowerCase rest);
     so_value := role_id role |}
  ∈ sm_options (subjectSelect (helperRoles (guild st'.2))).
Proof.
  intros Hmaps Hascii Hrest Hcreate. unfold createSubjectRole in Hcreate.
  apply request_inv in Hcreate as [(_ & [= ->] & ->)|(_ & [=] & _)].
  unfold subjectSelect, helperRoles, with_role, add_role, new_role.
  cbn [snd fst guild roles_cache sm_options role_id].
  rewrite List.filter_app, !List.map_app. apply elem_of_app. right.
  cbn [List.filter role_name]. rewrite endsWith_app. cbn [List.map].
  cbn [hr_subject hr_id role_id role_name].
  rewrite (proj1 Hmaps) by done. cbn [Js.toLowerCase].
  cbn [Js.is_ascii] in Hascii. apply andb_true_iff in Hascii as [Hc _].
  rewrite subject_label_ascii_first;
    [|done|by apply lower_ascii_is_ascii|by rewrite includes_hyphen_toLowerCase].
  rewrite upper_lower_ascii.
  apply list_elem_of_singleton. reflexivity.
Qed.

(** ** The whole of [handleCreateSubject] *)

Lemma getCategoryId_cases (st : State) :
  getCategoryId st
  = match categoryChannelId st.1 with
    | Some id => (Returned id, st)
    | None =>
        match List.find is_category (channels_cache (guild st.2)) with
        | Some c =>
            (Returned (ch_id c), (with_categoryChannelId st.1 (ch_id c), st.2))
        | None =>
            let call :=
              ChannelsCreate CATEGORY_CHANNEL_NAME CATEGORY_CHANNEL_TYPE None in
            if accepts st.2 then
              let c := new_channel st.2 CATEGORY_CHANNEL_NAME
                         CATEGORY_CHANNEL_TYPE None in
              (Returned (ch_id c),
               (with_categoryChannelId st.1 (ch_id c),
                with_channel (sent st.2 call) c))
            else (Thrown (DiscordAPIError call), (st.1, sent st.2 call))
        end
    end.
Proof.
  destruct st as [[i memo] w]. unfold getCategoryId, mbind, Async_bind.
  simpl. destruct memo as [id|]; [done|]. simpl.
  destruct (List.find is_category (channels_cache (guild w))); [done|].
  unfold guild_channels_create, request. simpl. by destruct (accepts w).
Qed.

Lemma getCategoryId_sets_memo (st : State) (id : Snowflake) (st1 : State) :
  getCategoryId st = (Returned id, st1) → categoryChannelId st1.1 = Some id.
Proof.
  rewrite getCategoryId_cases. repeat case_match; intros [= <- <-]; done.
Qed.

(** The handler, case by case: the validation, the resolution of the
    category, the creation of the forum channel, the creation of the role. *)
Lemma handleCreateSubject_eq (st : State) :
  handleCreateSubject st
  = match
      helperSchema_validate (optionsObject (int_options (interaction st.1)))
    with
    | inl message =>
        (Thrown (ValidationError message),
         (st.1, log st.2 (InteractionReply ("Error: " +:+ message) true [])))
    | inr options =>
        match getCategoryId st with
        | (Thrown e, st1) => (Thrown e, st1)
        | (Returned categoryId, st1) =>
            let forumName := emoji options +:+ "-" +:+ name options in
            let roleName := toLowerCase (name options) +:+ "-helper" in
            let forumCall :=
              ChannelsCreate forumName FORUM_CHANNEL_TYPE (Some categoryId) in
            let roleCall := RolesCreate roleName (color options) in
            if accepts st1.2 then
              let forum := new_channel st1.2 forumName FORUM_CHANNEL_TYPE
                             (Some categoryId) in
              let w2 := with_channel (sent st1.2 forumCall) forum in
              if accepts w2 then
                let role := new_role w2 roleName (color options) in
                let w3 := with_role (sent w2 roleCall) role in
                (Returned (),
                 (st1.1,
                  log w3
                    (InteractionReply
                       ("Subject " +:+ channel_url (guild w3) forum
                        +:+ " and role **" +:+ role_name role +:+ "** created!")
                       false [])))
              else (Thrown (DiscordAPIError roleCall), (st1.1, sent w2 roleCall))
            else (Thrown (DiscordAPIError forumCall), (st1.1, sent st1.2 forumCall))
        end
    end.
Proof.
  unfold handleCreateSubject.
  destruct (helperSchema_validate _) as [message|options] eqn:Hv.
  { by rewrite (bind_thrown _ _ _ _ _ (getOptions_invalid st message Hv)). }
  rewrite (bind_returned _ _ _ _ _ (getOptions_valid st options Hv)).
  destruct (getCategoryId st) as [[categoryId|e] st1] eqn:Hc.
  2:{ apply bind_thrown. by rewrite isSubjectNameUnique_eq, Hc. }
  assert (Hu : isSubjectNameUnique (name options) st = (Returned true, st1))
    by (by rewrite isSubjectNameUnique_eq, Hc).
  rewrite (bind_returned _ _ _ _ _ Hu). simpl negb. cbv iota.
  rewrite (bind_returned (mret ()) _ st1 () st1 eq_refl).
  pose proof (getCategoryId_sets_memo _ _ _ Hc) as Hmemo.
  cbv zeta. destruct (accepts st1.2) eqn:Ha1.
  2:{ apply bind_thrown. unfold createSubjectForum.
      rewrite (bind_returned _ _ _ _ _ (getCategoryId_hit st1 categoryId Hmemo)).
      unfold guild_channels_create, request. by rewrite Ha1. }
  rewrite (bind_returned _ _ _ _ _
             (createSubjectForum_accepted _ _ st1 categoryId Hmemo Ha1)).
  cbv zeta. unfold createSubjectRole at 1.
  match goal with |- context [accepts ?w] => destruct (accepts w) eqn:Ha2 end.
  2:{ apply bind_thrown. unfold guild_roles_create, request.
      match goal with
      | |- (if accepts ?w then _ else _) = _ =>
          assert (E : accepts w = false) by exact Ha2; by rewrite E
      end. }
  erewrite bind_returned; cycle 1.
  { apply guild_roles_create_accepted. exact Ha2. }
  reflexivity.
Qed.

Ltac createSubject_cases :=
  rewrite handleCreateSubject_eq, getCategoryId_cases; cbv zeta;
  repeat case_match; simplify_eq/=.

Lemma prefix_snoc {A} (l : list A) (x : A) : l `prefix_of` (l ++ [x])%list.
Proof. by exists [x]. Qed.

Lemma prefix_snoc2 {A} (l : list A) (x y : A) : l `prefix_of` ((l ++ [x]) ++ [y])%list.
Proof. exists [x; y]. by rewrite <- List.app_assoc. Qed.

(** X6.  Whatever happens, [handleCreateSubject] leaves the channels and the
    roles that were cached where they were, adding at most two channels (the
    category and the forum) and at most one role after them, and changes no
    membership. *)
Theorem handleCreateSubject_frame (st : State) :
  let st' := (handleCreateSubject st).2 in
  interaction st'.1 = interaction st.1
  ∧ guild_id (guild st'.2) = guild_id (guild st.2)
  ∧ member_roles (guild st'.2) = member_roles (guild st.2)
  ∧ channels_cache (guild st.2) `prefix_of` channels_cache (guild st'.2)
  ∧ roles_cache (guild st.2) `prefix_of` roles_cache (guild st'.2)
  ∧ (length (channels_cache (guild st'.2))
     ≤ length (channels_cache (guild st.2)) + 2)%nat
  ∧ (length (roles_cache (guild st'.2))
     ≤ length (roles_cache (guild st.2)) + 1)%nat.
Proof.
  createSubject_cases;
    repeat split;
    rewrite ?length_app; simpl;
    try done; try lia;
    try apply prefix_snoc; try apply prefix_snoc2.
Qed.

(** X4.  [handleCreateSubject] never refuses a subject as a duplicate,
    whatever the guild holds and whatever the options are: it never throws
    the error [Subject already exists!] and none of the requests it sends is
    the reply with that text. *)
Theorem handleCreateSubject_never_refuses (st : State) :
  (handleCreateSubject st).1 ≠ Thrown (JsError "Subject already exists!")
  ∧ ∃ calls,
      trace (handleCreateSubject st).2.2 = (trace st.2 ++ calls)%list
      ∧ InteractionReply "Subject already exists!" true [] ∉ calls.
Proof.
  createSubject_cases; (split; [done|]);
    rewrite <- ?List.app_assoc; simpl;
    first [ eexists; split; [reflexivity|]
          | exists []; split; [by rewrite List.app_nil_r|] ];
    rewrite ?not_elem_of_cons; repeat split; try done;
    apply not_elem_of_nil.
Qed.

(** X5.  With valid options, when what [handleCreateSubject] throws is the
    platform's rejection of a request to create a channel or a role, that
    request is the last one sent, every request sent before it was one to
    create a channel, so the requester got no reply, and no role has been
    created. *)
Theorem handleCreateSubject_rejection_silent (st : State)
    (options : HelperOptions) (call : ApiCall) (st' : State) :
  helperSchema_validate (optionsObject (int_options (interaction st.1)))
  = inr options →
  handleCreateSubject st = (Thrown (DiscordAPIError call), st') →
  ((∃ n t p, call = ChannelsCreate n t p) ∨ (∃ n c, call = RolesCreate n c)) →
  ∃ calls : list ApiCall,
    trace st'.2 = (trace st.2 ++ calls ++ [call])%list
    ∧ Forall (λ c, ∃ n t p, c = ChannelsCreate n t p) calls
    ∧ roles_cache (guild st'.2) = roles_cache (guild st.2).
Proof.
  intros Hv E _. revert E.
  rewrite handleCreateSubject_eq, Hv, getCategoryId_cases.
  cbv zeta. repeat case_match; simplify_eq/=; intros [= <- <-]; simpl;
    rewrite <- ?List.app_assoc; simpl.
  all: first
    [ by eexists []; repeat split; eauto
    | by eexists [_]; repeat split; eauto 10
    | by eexists [_; _]; repeat split; eauto 10 ].
Qed.

Lemma memo_consistent_extends (self : SubjectHelperService) (w w' : World) :
  memo_consistent (self, w) →
  channels_cache (guild w) `prefix_of` channels_cache (guild w') →
  memo_consistent (self, w').
Proof.
  intros Hm [k Hk] id Hid. destruct (Hm id Hid) as (c & Hc & <-).
  exists c. split; [|done]. simpl in *. rewrite Hk. by apply find_app_found.
Qed.

Lemma getCategoryId_keeps_memo (st : State) :
  memo_consistent st → memo_consistent (getCategoryId st).2.
Proof.
  intros Hm. destruct st as [self w].
  rewrite getCategoryId_cases. cbv zeta. repeat case_match; simplify_eq/=.
  - done.
  - by apply memo_consistent_set.
  - apply (memo_consistent_set self _
             (new_channel w CATEGORY_CHANNEL_NAME CATEGORY_CHANNEL_TYPE None)).
    simpl. apply find_snoc_missing; [done|apply is_category_new_channel].
  - by apply (memo_consistent_extends self w).
Qed.

(** X7.  [handleCreateSubject] keeps the memo field consistent, whether it
    returns or throws: after it, the field is unset or holds the identifier
    of the category that [getCategoryId] would find in the cache. *)
Theorem handleCreateSubject_keeps_memo (st : State) :
  memo_consistent st → memo_consistent (handleCreateSubject st).2.
Proof.
  intros Hm. pose proof (getCategoryId_keeps_memo st Hm) as Hm1.
  rewrite handleCreateSubject_eq.
  destruct (helperSchema_validate _) as [message|options].
  { destruct st as [self w]. by apply (memo_consistent_extends self w). }
  destruct (getCategoryId st) as [[categoryId|e] [self w1]]; [|done].
  cbv zeta. simpl in Hm1.
  repeat case_match; simpl; apply (memo_consistent_extends self w1);
    try done; simpl; try apply prefix_snoc.
Qed.

(** The handler when nothing stands in its way. *)
Lemma handleCreateSubject_succeeds (st : State) (options : HelperOptions) :
  memo_consistent st →
  helperSchema_validate (optionsObject (int_options (interaction st.1)))
  = inr options →
  true ∉ faults st.2 →
  ∃ (category forum : Channel) (role : Role) (w' : World),
    handleCreateSubject st
    = (Returned (), (with_categoryChannelId st.1 (ch_id category), w'))
    ∧ List.find is_category (channels_cache (guild w')) = Some category
    ∧ ch_name forum = emoji options +:+ "-" +:+ name options
    ∧ ch_parentId forum = Some (ch_id category)
    ∧ channels_cache (guild w')
      = (channels_cache (guild st.2)
         ++ match List.find is_category (channels_cache (guild st.2)) with
            | Some _ => []
            | None => [category]
            end
         ++ [forum])%list
    ∧ role_name role = toLowerCase (name options) +:+ "-helper"
    ∧ roles_cache (guild w') = (roles_cache (guild st.2) ++ [role])%list
    ∧ member_roles (guild w') = member_roles (guild st.2)
    ∧ true ∉ faults w'.
Proof.
  intros Hm Hv Hfaults.
  assert (Ht : ∀ f : list bool, true ∉ f → true ∉ tail (tail f))
    by (intros f Hf; by do 2 apply tail_no_fault).
  destruct (List.find is_category (channels_cache (guild st.2)))
    as [category|] eqn:Hf.
  - pose proof (getCategoryId_present st category Hm Hf) as Hc.
    pose proof (handleCreateSubject_resolved st options _ _ Hv Hc eq_refl
                  Hfaults) as E.
    cbv zeta in E.
    eexists category,
      {| ch_id := next_id st.2;
         ch_name := emoji options +:+ "-" +:+ name options;
         ch_type := FORUM_CHANNEL_TYPE;
         ch_parentId := Some (ch_id category) |},
      {| role_id := N.succ (next_id st.2);
         role_name := toLowerCase (name options) +:+ "-helper";
         role_color := color options |}, _.
    split; [exact E|]. simpl.
    split; [by apply find_app_found|].
    do 6 (split; [reflexivity|]). by apply Ht.
  - pose proof (getCategoryId_absent st Hm Hf) as Hc. cbv zeta in Hc.
    rewrite (accepts_no_fault _ Hfaults) in Hc.
    pose proof (handleCreateSubject_resolved st options _ _ Hv Hc eq_refl
                  (tail_no_fault _ Hfaults)) as E.
    cbv zeta in E.
    eexists (new_channel st.2 CATEGORY_CHANNEL_NAME CATEGORY_CHANNEL_TYPE None),
      {| ch_id := N.succ (next_id st.2);
         ch_name := emoji options +:+ "-" +:+ name options;
         ch_type := FORUM_CHANNEL_TYPE;
         ch_parentId := Some (next_id st.2) |},
      {| role_id := N.succ (N.succ (next_id st.2));
         role_name := toLowerCase (name options) +:+ "-helper";
         role_color := color options |}, _.
    split; [exact E|]. simpl.
    split.
    { apply find_app_found, find_snoc_missing; [done|].
      apply is_category_new_channel. }
    do 2 (split; [reflexivity|]).
    split; [by rewrite <- ?List.app_assoc|].
    do 3 (split; [reflexivity|]).
    by apply tail_no_fault, Ht.
Qed.


(** ** The other paths of [handleBecomeHelper] *)

Lemma helperRoles_from_cache (g : Guild) (r : HelperRole) :
  r ∈ helperRoles g →
  ∃ role, role ∈ roles_cache g ∧ role_id role = hr_id r
          ∧ Js.endsWith (role_name role) "-helper" = true.
Proof.
  unfold helperRoles. intros H.
  apply list_elem_of_In, in_map_iff in H as (role & <- & Hin).
  apply filter_In in Hin as [Hin Hsuffix].
  exists role. by rewrite list_elem_of_In.
Qed.

Lemma roles_of_grant (g : Guild) (member role other : Snowflake) :
  roles_of (grant_role g member role) other
  = if decide (member = other) then {[role]} ∪ roles_of g member
    else roles_of g other.
Proof.
  unfold roles_of at 1. simpl. rewrite lookup_insert. by case_decide.
Qed.

(** X9.  When the requester selects a helper role that the requester does
    not hold and the platform accepts the request, the handler returns after
    five requests in this order: the menu, its deletion, the addition of the
    role, the private congratulation and the public announcement; the
    requester then holds the role next to the roles held before. *)
Theorem handleBecomeHelper_grants (incoming : list SelectInteraction)
    (st : State) (selectedSubjects : SelectInteraction)
    (selectedRole : HelperRole) :
  let member := user_id (int_user (interaction st.1)) in
  List.find (collectorFilter st.1) incoming = Some selectedSubjects →
  List.find (is_selected selectedSubjects) (helperRoles (guild st.2))
  = Some selectedRole →
  hr_id selectedRole ∉ roles_of (guild st.2) member →
  accepts st.2 = true →
  ∃ w',
    handleBecomeHelper incoming st = (Returned (), (st.1, w'))
    ∧ trace w'
      = (trace st.2
         ++ [prompt (guild st.2); InteractionDeleteReply;
             MemberRolesAdd member (hr_id selectedRole);
             congratulation selectedRole;
             announcement st.1 selectedRole])%list
    ∧ roles_of (guild w') member
      = {[hr_id selectedRole]} ∪ roles_of (guild st.2) member.
Proof.
  intros member Hsel Hrole Hnew Haccepts.
  rewrite handleBecomeHelper_eq. cbv zeta. rewrite Hsel, Hrole. fold member.
  rewrite bool_decide_eq_false_2, Haccepts by done.
  eexists. split; [reflexivity|]. simpl. split.
  - by rewrite <- !List.app_assoc.
  - rewrite roles_of_grant. by rewrite decide_True.
Qed.

(** X10.  When the platform rejects the addition of the role, the handler
    throws that rejection; the menu has been deleted, the requester gets
    neither the congratulation nor any other message, and the guild is as it
    was. *)
Theorem handleBecomeHelper_rejected (incoming : list SelectInteraction)
    (st : State) (selectedSubjects : SelectInteraction)
    (selectedRole : HelperRole) :
  let member := user_id (int_user (interaction st.1)) in
  let call := MemberRolesAdd member (hr_id selectedRole) in
  List.find (collectorFilter st.1) incoming = Some selectedSubjects →
  List.find (is_selected selectedSubjects) (helperRoles (guild st.2))
  = Some selectedRole →
  hr_id selectedRole ∉ roles_of (guild st.2) member →
  accepts st.2 = false →
  ∃ w',
    handleBecomeHelper incoming st = (Thrown (DiscordAPIError call), (st.1, w'))
    ∧ trace w'
      = (trace st.2 ++ [prompt (guild st.2); InteractionDeleteReply; call])%list
    ∧ guild w' = guild st.2.
Proof.
  intros member call Hsel Hrole Hnew Haccepts.
  rewrite handleBecomeHelper_eq. cbv zeta. rewrite Hsel, Hrole. fold member.
  rewrite bool_decide_eq_false_2, Haccepts by done.
  eexists. split; [reflexivity|]. simpl. split; [|done].
  by rewrite <- !List.app_assoc.
Qed.

(** X11.  Whatever arrives, [handleBecomeHelper] touches nothing but the
    roles of the requester: the object, the channels and the roles of the
    guild and the roles of every other member are as they were.  The
    requester keeps the roles held before, and a role the requester holds
    afterwards and did not hold before is a cached role whose name ends
    with [-helper]. *)
Theorem handleBecomeHelper_only_helper_roles (incoming : list SelectInteraction)
    (st : State) :
  let member := user_id (int_user (interaction st.1)) in
  let st' := (handleBecomeHelper incoming st).2 in
  st'.1 = st.1
  ∧ channels_cache (guild st'.2) = channels_cache (guild st.2)
  ∧ roles_cache (guild st'.2) = roles_cache (guild st.2)
  ∧ (∀ other, other ≠ member →
       roles_of (guild st'.2) other = roles_of (guild st.2) other)
  ∧ roles_of (guild st.2) member ⊆ roles_of (guild st'.2) member
  ∧ (∀ id, id ∈ roles_of (guild st'.2) member →
       id ∈ roles_of (guild st.2) member
       ∨ ∃ role, role ∈ roles_cache (guild st.2) ∧ role_id role = id
                 ∧ Js.endsWith (role_name role) "-helper" = true).
Proof.
  clear toLowerCase.
  intros member st'. unfold st'. rewrite handleBecomeHelper_eq. cbv zeta.
  fold member.
  destruct (List.find (collectorFilter st.1) incoming) as [sel|];
    [|by repeat split; auto].
  destruct (List.find (is_selected sel) (helperRoles (guild st.2)))
    as [role|] eqn:Hrole; [|by repeat split; auto].
  case_bool_decide; [by repeat split; auto|].
  destruct (accepts st.2); [|by repeat split; auto].
  simpl. do 3 (split; [done|]).
  split; [intros other Hne; rewrite roles_of_grant; by rewrite decide_False|].
  rewrite roles_of_grant, decide_True by done.
  split; [set_solver|].
  intros id Hid. apply elem_of_union in Hid as [Hid|Hid]; [|by left].
  right. apply elem_of_singleton in Hid as ->.
  apply helperRoles_from_cache, list_elem_of_In.
  exact (proj1 (find_some _ _ Hrole)).
Qed.

(** X12.  When the first value of the selection is the identifier of no
    cached role whose name ends with [-helper], the handler deletes the menu
    and throws the type error of reading [id] on undefined; it adds no
    role. *)
Theorem handleBecomeHelper_unknown_value (incoming : list SelectInteraction)
    (st : State) (selectedSubjects : SelectInteraction) :
  List.find (collectorFilter st.1) incoming = Some selectedSubjects →
  (∀ role, role ∈ roles_cache (guild st.2) →
     Js.endsWith (role_name role) "-helper" = true →
     head (sel_values selectedSubjects) ≠ Some (role_id role)) →
  handleBecomeHelper incoming st
  = (Thrown no_role,
     (st.1, log (log st.2 (prompt (guild st.2))) InteractionDeleteReply)).
Proof.
  intros Hsel Hunknown. rewrite handleBecomeHelper_eq. cbv zeta. rewrite Hsel.
  destruct (List.find (is_selected selectedSubjects) (helperRoles (guild st.2)))
    as [r|] eqn:Hr; [exfalso|done].
  apply find_some in Hr as [Hin Hsel'].
  apply list_elem_of_In, helperRoles_from_cache in Hin
    as (role & Hrole & Hid & Hsuffix).
  apply bool_decide_eq_true in Hsel'.
  apply (Hunknown role Hrole Hsuffix). by rewrite Hid.
Qed.

Lemma is_selected_head (selection selection' : SelectInteraction) :
  head (sel_values selection) = head (sel_values selection') →
  is_selected selection = is_selected selection'.
Proof. intros H. unfold is_selected. by rewrite H. Qed.

(** X13.  Of a selection only the first value counts: two selections by the
    same user with the same first value, whatever follows it, lead the
    handler to the same outcome and the same final state. *)
Theorem handleBecomeHelper_first_value_only
    (before after : list SelectInteraction)
    (selection selection' : SelectInteraction) (st : State) :
  sel_user selection = sel_user selection' →
  head (sel_values selection) = head (sel_values selection') →
  handleBecomeHelper (before ++ selection :: after) st
  = handleBecomeHelper (before ++ selection' :: after) st.
Proof.
  intros Huser Hhead. rewrite !handleBecomeHelper_eq. cbv zeta.
  assert (Hp : collectorFilter st.1 selection = collectorFilter st.1 selection')
    by (unfold collectorFilter; by rewrite Huser).
  induction before as [|other before IH]; simpl.
  - rewrite <- Hp. destruct (collectorFilter st.1 selection); [|done].
    by rewrite (is_selected_head _ _ Hhead).
  - by destruct (collectorFilter st.1 other).
Qed.

(** ** The paths of [handleWhipSlaves] *)

(** X14.  [handleWhipSlaves] never posts the refusal, whatever
    [isHelperThread] would answer for the channel: it defers the reply, and
    if any request follows, it is not the edit with the refusal text.  The
    guild is as it was. *)
Theorem handleWhipSlaves_never_refuses (st : State) :
  let st' := (handleWhipSlaves st).2 in
  st'.1 = st.1
  ∧ guild st'.2 = guild st.2
  ∧ ∃ calls,
      trace st'.2 = (trace st.2 ++ InteractionDeferReply :: calls)%list
      ∧ InteractionEditReply refusal ∉ calls.
Proof.
  intros st'. unfold st'. rewrite handleWhipSlaves_eq. cbv zeta.
  destruct (helperThreadToRoleName (int_channel (interaction st.1)))
    as [role|]; simpl; (split; [done|]); (split; [done|]).
  - eexists [_]. split; [by rewrite <- List.app_assoc|].
    apply not_elem_of_cons. split; [discriminate|apply not_elem_of_nil].
  - exists []. split; [done|apply not_elem_of_nil].
Qed.

(** X15.  When [helperThreadToRoleName] finds no role for the channel, the
    handler throws the type error of reading [id] on undefined right after
    deferring the reply: the deferred reply is never edited. *)
Theorem handleWhipSlaves_no_role (st : State) :
  helperThreadToRoleName (int_channel (interaction st.1)) = None →
  handleWhipSlaves st = (Thrown no_role, (st.1, log st.2 InteractionDeferReply)).
Proof. intros H. rewrite handleWhipSlaves_eq. cbv zeta. by rewrite H. Qed.

(** ** From a new subject to its first helper *)

(** X16.  Once [handleCreateSubject] has created a subject, a member who
    invokes [handleBecomeHelper] and selects the role just created (the
    last one of the cache) becomes a helper of it: the second handler
    returns and the member holds the role named [lowercase(name)-helper],
    the lower case being the one of [String.prototype.toLowerCase] for every
    name.  The platform is taken to reject nothing. *)
Theorem created_subject_can_be_joined (st : State) (options : HelperOptions)
    (i : Interaction) (incoming : list SelectInteraction)
    (selection : SelectInteraction) :
  let st1 := (handleCreateSubject st).2 in
  let joined := handleBecomeHelper incoming (constructor i, st1.2) in
  memo_consistent st →
  helperSchema_validate (optionsObject (int_options (interaction st.1)))
  = inr options →
  true ∉ faults st.2 →
  List.find (collectorFilter (constructor i)) incoming = Some selection →
  head (sel_values selection) = last (role_id <$> roles_cache (guild st1.2)) →
  ∃ role,
    last (roles_cache (guild st1.2)) = Some role
    ∧ role_name role = toLowerCase (name options) +:+ "-helper"
    ∧ joined.1 = Returned ()
    ∧ role_id role ∈ roles_of (guild joined.2.2) (user_id (int_user i)).
Proof.
  clear isHelperThread helperThreadToRoleName.
  intros st1 joined Hm Hv Hfaults Hsel Hhead.
  destruct (handleCreateSubject_succeeds st options Hm Hv Hfaults)
    as (category & forum & role & w1 & E & _ & _ & _ & _ & Hname & Hroles & _
        & Hfaults1).
  assert (Hst1 : st1.2 = w1) by (unfold st1; by rewrite E).
  unfold joined. rewrite Hst1 in Hhead |- *. clear joined.
  rewrite Hroles, fmap_app in Hhead. cbn [fmap list_fmap] in Hhead.
  rewrite last_snoc in Hhead.
  exists role. split; [by rewrite Hroles, last_snoc|]. split; [done|].
  assert (Hoffered : ∃ r, List.find (is_selected selection)
                            (helperRoles (guild w1)) = Some r
                          ∧ hr_id r = role_id role).
  { destruct (List.find (is_selected selection) (helperRoles (guild w1)))
      as [r|] eqn:Hr.
    - exists r. split; [done|]. apply find_some in Hr as [_ Hr].
      apply bool_decide_eq_true in Hr. rewrite Hhead in Hr. by injection Hr.
    - exfalso.
      pose proof (find_none _ _ Hr
                    {| hr_id := role_id role; hr_role := role_name role;
                       hr_subject := subject_label (role_name role) |}) as Hno.
      unfold is_selected in Hno. simpl in Hno.
      rewrite Hhead, bool_decide_eq_true_2 in Hno by done.
      discriminate Hno. unfold helperRoles. rewrite Hroles.
      rewrite List.filter_app, List.map_app. apply in_or_app. right.
      assert (Hsuffix : Js.endsWith (role_name role) "-helper" = true)
        by (rewrite Hname; apply endsWith_app).
      cbn [List.filter]. rewrite Hsuffix. by left. }
  destruct Hoffered as (r & Hr & Hid).
  rewrite handleBecomeHelper_eq. cbv zeta. cbn [fst snd].
  rewrite Hsel, Hr, Hid, (accepts_no_fault _ Hfaults1).
  case_bool_decide as Hheld; simpl; [done|].
  split; [done|]. rewrite roles_of_grant, decide_True by done. set_solver.
Qed.

End Service.

(** The answer of [isHelperThread] has no part in what [handleWhipSlaves]
    does. *)
Lemma handleWhipSlaves_ignores_check (isHelperThread isHelperThread' :
    Channel → bool) (helperThreadToRoleName : Channel → option Role)
    (st : State) :
  handleWhipSlaves isHelperThread helperThreadToRoleName st
  = handleWhipSlaves isHelperThread' helperThreadToRoleName st.
Proof. by rewrite !handleWhipSlaves_eq. Qed.

(** ** The theorems at work on the example guild *)

Import Example.

(** On the guild without a category: a first resolution that the platform
    rejects, then one on a new object that creates the category, then one on
    that object and one on yet another object, which both reuse it. *)
Example resolutions_bare :
  let run :=
    resolutions "Subjects" 4 [None; Some (command []); None; Some (command math)]
      (constructor (command []), start bare [true]) in
  run.1
  = [Thrown (DiscordAPIError (ChannelsCreate "Subjects" 4 None));
     Returned 101%N; Returned 101%N; Returned 101%N]
  ∧ channels_cache (guild run.2.2)
    = [{| ch_id := 101; ch_name := "Subjects"; ch_type := 4;
          ch_parentId := None |}].
Proof. split; reflexivity. Qed.

(** The resolver on the example guild, whose cache holds the category. *)
Lemma getCategoryId_singleton_witness :
  memo_consistent "Subjects" 4 (constructor (command []), start server [])
  ∧ getCategoryId "Subjects" 4 (constructor (command []), start server [])
    = (Returned 1%N,
       (with_categoryChannelId (constructor (command [])) 1, start server [])).
Proof.
  assert (H : memo_consistent "Subjects" 4
                (constructor (command []), start server []))
    by (intros id Hid; discriminate Hid).
  split; [exact H|].
  exact (proj1 (getCategoryId_singleton "Subjects" 4 _ [] H) category eq_refl).
Defined.

(** A command without options: the schema rejects it for the missing name. *)
Lemma handleCreateSubject_invalid_witness :
  validate (optionsObject (int_options (command []))) = inl "name is a required field"
  ∧ handleCreateSubject Js.toLowerCase "Subjects" 4 15 validate
      (constructor (command []), start server [])
    = (Thrown (ValidationError "name is a required field"),
       (constructor (command []),
        log (start server [])
          (InteractionReply "Error: name is a required field" true []))).
Proof.
  split; [reflexivity|].
  apply (handleCreateSubject_invalid Js.toLowerCase "Subjects" 4 15 validate
           (constructor (command []), start server [])
           "name is a required field").
  reflexivity.
Defined.

(** The platform accepts the forum channel and rejects the role. *)
Lemma handleCreateSubject_no_rollback_witness :
  let st := (constructor (command math), start server [false; true]) in
  let st1 := (with_categoryChannelId st.1 1, st.2) in
  let st2 :=
    (st1.1,
     with_channel (sent st1.2 (ChannelsCreate "🧮-Math" 15 (Some 1%N)))
       math_forum) in
  let call := RolesCreate "math-helper" "#00FF00" in
  let st3 := (st2.1, sent st2.2 call) in
  validate (optionsObject (int_options (interaction st.1)))
  = inr {| name := "Math"; color := "#00FF00"; emoji := "🧮" |}
  ∧ isSubjectNameUnique Js.toLowerCase "Subjects" 4 "Math" st = (Returned true, st1)
  ∧ createSubjectForum "Subjects" 4 15 "Math" "🧮" st1
    = (Returned math_forum, st2)
  ∧ createSubjectRole Js.toLowerCase "Math" "#00FF00" st2
    = (Thrown (DiscordAPIError call), st3)
  ∧ handleCreateSubject Js.toLowerCase "Subjects" 4 15 validate st
    = (Thrown (DiscordAPIError call), st3)
  ∧ math_forum ∈ channels_cache (guild st3.2).
Proof.
  intros st st1 st2 call st3.
  assert (Hv : validate (optionsObject (int_options (interaction st.1)))
               = inr {| name := "Math"; color := "#00FF00"; emoji := "🧮" |})
    by reflexivity.
  assert (Hu : isSubjectNameUnique Js.toLowerCase "Subjects" 4 "Math" st = (Returned true, st1))
    by reflexivity.
  assert (Hf : createSubjectForum "Subjects" 4 15 "Math" "🧮" st1
               = (Returned math_forum, st2)) by reflexivity.
  assert (Hr : createSubjectRole Js.toLowerCase "Math" "#00FF00" st2
               = (Thrown (DiscordAPIError call), st3)) by reflexivity.
  do 4 (split; [assumption|]).
  destruct (handleCreateSubject_no_rollback Js.toLowerCase "Subjects" 4 15 validate
              st _ true st1 math_forum st2 _ st3 Hv Hu Hf Hr)
    as (E & _ & Hin & _).
  split; [exact E|exact Hin].
Defined.

(** The documentation's example: the subject Biology on a guild without a
    biology channel. *)
Lemma handleCreateSubject_creates_witness :
  let st := (constructor (command biology), start server []) in
  memo_consistent "Subjects" 4 st
  ∧ validate (optionsObject (int_options (interaction st.1)))
    = inr {| name := "Biology"; color := "#00FF00"; emoji := "🧬" |}
  ∧ name_taken Js.toLowerCase server 1 "Biology" = false
  ∧ (true ∉ faults st.2)
  ∧ ∃ (forum : Channel) (role : Role) (st' : State),
      handleCreateSubject Js.toLowerCase "Subjects" 4 15 validate st = (Returned (), st')
      ∧ ch_name forum = "🧬-Biology"
      ∧ ch_parentId forum = Some 1%N
      ∧ role_name role = "biology-helper"
      ∧ role_color role = "#00FF00"
      ∧ channels_cache (guild st'.2) = [category; study; forum]
      ∧ roles_cache (guild st'.2) = [math_helper; role].
Proof.
  intros st.
  assert (Hm : memo_consistent "Subjects" 4 st)
    by (intros id Hid; discriminate Hid).
  assert (Hv : validate (optionsObject (int_options (interaction st.1)))
               = inr {| name := "Biology"; color := "#00FF00"; emoji := "🧬" |})
    by reflexivity.
  assert (Hn : name_taken Js.toLowerCase server 1 "Biology" = false) by reflexivity.
  assert (Hfaults : true ∉ faults st.2) by (intros H; inversion H).
  do 4 (split; [assumption|]).
  destruct (handleCreateSubject_creates Js.toLowerCase "Subjects" 4 15 validate st _ Hm Hv)
    as (c & forum & role & st' & E & _ & Hfn & _ & Hfp & Hrn & Hrc & Hch & Hc
        & Hro & _).
  { intros c [= <-]. exact Hn. }
  { exact Hfaults. }
  exists forum, role, st'.
  split; [exact E|]. split; [exact Hfn|].
  split.
  { rewrite Hfp. vm_compute in E. injection E as <-.
    vm_compute in Hc. injection Hc as <-. reflexivity. }
  split; [exact Hrn|]. split; [exact Hrc|]. split; [exact Hch|exact Hro].
Defined.

(** The only arrival in the window is a selection by somebody else. *)
Lemma handleBecomeHelper_timeout_witness :
  let st := (constructor (command []), start server []) in
  List.find (collectorFilter st.1) [by_bob] = None
  ∧ handleBecomeHelper Js.toUpperCase "select-helper-roles" [by_bob] st
    = (Thrown timeout,
       (st.1, log st.2 (prompt Js.toUpperCase "select-helper-roles" server))).
Proof.
  intros st. split; [reflexivity|].
  apply (handleBecomeHelper_timeout Js.toUpperCase "select-helper-roles" [by_bob] st).
  reflexivity.
Defined.

(** C2, counterexample.  On the example guild, with a selection by somebody
    else as the only arrival, the handler does not end without an error. *)
Lemma timeout_ends_cleanly_counterexample :
  ¬ timeout_ends_cleanly Js.toUpperCase "select-helper-roles" [by_bob]
      (constructor (command []), start server []).
Proof.
  intros H. destruct (H eq_refl) as (st' & E & _). discriminate E.
Qed.

(** [ann] selects the helper role she holds; and [ann] selects it twice in a
    row, starting without it. *)
Lemma handleBecomeHelper_idempotent_witness :
  let id := "select-helper-roles" in
  let selectedRole :=
    {| hr_id := 50; hr_role := "math-helper"; hr_subject := "Math" |} in
  let held := (constructor (command []), start enrolled []) in
  let new := (constructor (command []), start server []) in
  let reported (s : State) : State :=
    (s.1,
     log (log (log s.2 (prompt Js.toUpperCase id (guild s.2))) InteractionDeleteReply)
       (already_held selectedRole)) in
  List.find (collectorFilter held.1) [by_ann] = Some by_ann
  ∧ List.find (is_selected by_ann) (helperRoles Js.toUpperCase enrolled) = Some selectedRole
  ∧ 50%N ∈ roles_of enrolled 7
  ∧ handleBecomeHelper Js.toUpperCase id [by_ann] held = (Returned (), reported held)
  ∧ handleBecomeHelper Js.toUpperCase id [by_ann] (handleBecomeHelper Js.toUpperCase id [by_ann] new).2
    = (Returned (), reported (handleBecomeHelper Js.toUpperCase id [by_ann] new).2).
Proof.
  intros id selectedRole held new reported.
  assert (Hin : 50%N ∈ roles_of enrolled 7).
  { apply (bool_decide_unpack _). vm_compute. exact I. }
  do 2 (split; [reflexivity|]). split; [exact Hin|].
  split.
  - exact (proj1 (proj1 (handleBecomeHelper_idempotent Js.toUpperCase id [by_ann] held by_ann
                           selectedRole eq_refl eq_refl) Hin)).
  - exact (proj1 (proj2 (proj2 (handleBecomeHelper_idempotent Js.toUpperCase id [by_ann] new
                                  by_ann selectedRole eq_refl eq_refl)
                           _ eq_refl))).
Defined.

(** A selection by somebody else arrives before the one by [ann]. *)
Lemma handleBecomeHelper_scoped_witness :
  let st := (constructor (command []), start server []) in
  sel_user by_bob ≠ user_id (int_user (interaction st.1))
  ∧ handleBecomeHelper Js.toUpperCase "select-helper-roles" [by_bob; by_ann] st
    = handleBecomeHelper Js.toUpperCase "select-helper-roles" [by_ann] st.
Proof.
  intros st.
  assert (Hne : sel_user by_bob ≠ user_id (int_user (interaction st.1)))
    by (intros H; discriminate H).
  split; [exact Hne|].
  exact (handleBecomeHelper_scoped Js.toUpperCase "select-helper-roles" [] [by_ann] by_bob st
           Hne).
Defined.

(** [ann] submits the menu with nothing selected. *)
Lemma handleBecomeHelper_empty_selection_witness :
  let st := (constructor (command []), start server []) in
  List.find (collectorFilter st.1) [by_bob; nothing_by_ann]
  = Some nothing_by_ann
  ∧ sel_values nothing_by_ann = []
  ∧ handleBecomeHelper Js.toUpperCase "select-helper-roles" [by_bob; nothing_by_ann] st
    = (Thrown no_role,
       (st.1,
        log (log st.2 (prompt Js.toUpperCase "select-helper-roles" server))
          InteractionDeleteReply)).
Proof.
  intros st. do 2 (split; [reflexivity|]).
  apply (handleBecomeHelper_empty_selection Js.toUpperCase "select-helper-roles"
           [by_bob; nothing_by_ann] st nothing_by_ann eq_refl eq_refl).
Defined.

(** C1, on the example guild.  The channel [calculus-math-study] is under
    the category and its name contains [math]; [handleCreateSubject] for the
    subject [Math] is not refused: it returns, the forum channel and the
    role are created, and the reply is the success message. *)
Theorem handleCreateSubject_duplicate_accepted :
  let st := (constructor (command math), start server []) in
  name_taken Js.toLowerCase server 1 "Math" = true
  ∧ List.filter (names_subject Js.toLowerCase 1 "Math") (channels_cache server) = [study]
  ∧ isSubjectNameUnique Js.toLowerCase "Subjects" 4 "Math" st
    = (Returned true, (with_categoryChannelId st.1 1, st.2))
  ∧ ∃ w,
      handleCreateSubject Js.toLowerCase "Subjects" 4 15 validate st
      = (Returned (), (with_categoryChannelId st.1 1, w))
      ∧ channels_cache (guild w) = [category; study; math_forum]
      ∧ roles_cache (guild w)
        = [math_helper;
           {| role_id := 102; role_name := "math-helper";
              role_color := "#00FF00" |}]
      ∧ trace w
        = [ChannelsCreate "🧮-Math" 15 (Some 1%N);
           RolesCreate "math-helper" "#00FF00";
           InteractionReply
             "Subject https://discord.com/channels/100/101 and role **math-helper** created!"
             false []].
Proof.
  intros st. do 3 (split; [reflexivity|]).
  eexists. split; [vm_compute; reflexivity|].
  repeat split.
Qed.

(** C3, on the example guild.  Whatever [isHelperThread] answers, here that
    the channel is no helper thread, [handleWhipSlaves] posts the mention of
    the role and not the refusal. *)
Theorem handleWhipSlaves_outside_thread :
  let st := (constructor (command []), start server []) in
  let isHelperThread := λ _ : Channel, false in
  let helperThreadToRoleName := λ _ : Channel, Some math_helper in
  isHelperThread (int_channel (interaction st.1)) = false
  ∧ handleWhipSlaves isHelperThread helperThreadToRoleName st
    = (Returned (),
       (st.1,
        log (log st.2 InteractionDeferReply)
          (InteractionEditReply "<@&50>, get to work! 𓀓𓀝")))
  ∧ InteractionEditReply refusal
    ∉ trace (handleWhipSlaves isHelperThread helperThreadToRoleName st).2.2.
Proof.
  intros st isHelperThread helperThreadToRoleName.
  split; [reflexivity|]. split; [reflexivity|].
  vm_compute. intros H.
  apply elem_of_cons in H as [H|H]; [discriminate H|].
  apply elem_of_cons in H as [H|H]; [discriminate H|].
  by apply elem_of_nil in H.
Qed.

(** ** Further runs on the example guild *)

(** The subject Biology: its role is [biology-helper], its label Biology. *)
Lemma subject_label_of_created_role_witness :
  ascii_case_maps Js.toLowerCase Js.toUpperCase
  ∧ Js.is_ascii "Biology" = true
  ∧ Js.includes "iology" "-" = false
  ∧ subject_label Js.toUpperCase (Js.toLowerCase "Biology" +:+ "-helper")
    = "Biology".
Proof.
  assert (H : ascii_case_maps Js.toLowerCase Js.toUpperCase)
    by (split; intros s _; reflexivity).
  split; [exact H|]. do 2 (split; [reflexivity|]).
  exact (subject_label_of_created_role Js.toLowerCase Js.toUpperCase
           "B" "iology" H eq_refl eq_refl).
Defined.

(** The role of the subject Biology, created on the example guild, is in the
    menu. *)
Lemma createSubjectRole_offered_witness :
  let st := (constructor (command biology), start server []) in
  let role :=
    {| role_id := 101; role_name := "biology-helper";
       role_color := "#00FF00" |} in
  let st' :=
    (st.1, with_role (sent st.2 (RolesCreate "biology-helper" "#00FF00")) role) in
  ascii_case_maps Js.toLowerCase Js.toUpperCase
  ∧ Js.is_ascii "Biology" = true
  ∧ Js.includes "iology" "-" = false
  ∧ createSubjectRole Js.toLowerCase "Biology" "#00FF00" st
    = (Returned role, st')
  ∧ {| so_label := "Biology"; so_value := 101 |}
    ∈ sm_options
        (subjectSelect "select-helper-roles"
           (helperRoles Js.toUpperCase (guild st'.2))).
Proof.
  intros st role st'.
  assert (H : ascii_case_maps Js.toLowerCase Js.toUpperCase)
    by (split; intros s _; reflexivity).
  split; [exact H|]. do 3 (split; [reflexivity|]).
  exact (createSubjectRole_offered Js.toLowerCase Js.toUpperCase
           "select-helper-roles" "B" "iology" "#00FF00" st role st'
           H eq_refl eq_refl eq_refl).
Defined.

(** The platform rejects the forum channel of the subject Math. *)
Lemma handleCreateSubject_rejection_silent_witness :
  let st := (constructor (command math), start server [true]) in
  let call := ChannelsCreate "🧮-Math" 15 (Some 1%N) in
  let st' := (with_categoryChannelId st.1 1, sent st.2 call) in
  validate (optionsObject (int_options (interaction st.1)))
  = inr {| name := "Math"; color := "#00FF00"; emoji := "🧮" |}
  ∧ handleCreateSubject Js.toLowerCase "Subjects" 4 15 validate st
    = (Thrown (DiscordAPIError call), st')
  ∧ ((∃ n t p, call = ChannelsCreate n t p) ∨ (∃ n c, call = RolesCreate n c))
  ∧ trace st'.2 = [call]
  ∧ roles_cache (guild st'.2) = roles_cache (guild st.2).
Proof.
  intros st call st'. do 2 (split; [reflexivity|]).
  assert (Hcall : (∃ n t p, call = ChannelsCreate n t p)
                  ∨ (∃ n c, call = RolesCreate n c))
    by (left; by exists "🧮-Math", 15%Z, (Some 1%N)).
  split; [exact Hcall|]. split; [reflexivity|].
  destruct (handleCreateSubject_rejection_silent Js.toLowerCase "Subjects" 4 15
              validate st _ call st' eq_refl eq_refl Hcall)
    as (calls & _ & _ & H).
  exact H.
Defined.

(** The subject Biology created on the guild without a category. *)
Lemma handleCreateSubject_keeps_memo_witness :
  let st := (constructor (command biology), start bare []) in
  memo_consistent "Subjects" 4 st
  ∧ memo_consistent "Subjects" 4
      (handleCreateSubject Js.toLowerCase "Subjects" 4 15 validate st).2.
Proof.
  intros st.
  assert (H : memo_consistent "Subjects" 4 st)
    by (intros id Hid; discriminate Hid).
  split; [exact H|].
  exact (handleCreateSubject_keeps_memo Js.toLowerCase "Subjects" 4 15 validate st H).
Defined.


(** [ann] selects the helper role, which she does not hold; the platform
    accepts, or rejects, the addition. *)
Lemma handleBecomeHelper_grants_witness :
  let st := (constructor (command []), start server []) in
  let selectedRole :=
    {| hr_id := 50; hr_role := "math-helper"; hr_subject := "Math" |} in
  List.find (collectorFilter st.1) [by_ann] = Some by_ann
  ∧ List.find (is_selected by_ann) (helperRoles Js.toUpperCase server) = Some selectedRole
  ∧ (50%N ∉ roles_of server 7)
  ∧ accepts st.2 = true
  ∧ ∃ w',
      handleBecomeHelper Js.toUpperCase "select-helper-roles" [by_ann] st
      = (Returned (), (st.1, w'))
      ∧ roles_of (guild w') 7 = {[50%N]} ∪ roles_of server 7.
Proof.
  intros st selectedRole.
  assert (Hnew : 50%N ∉ roles_of server 7)
    by (apply (bool_decide_unpack _); vm_compute; exact I).
  do 2 (split; [reflexivity|]). split; [exact Hnew|]. split; [reflexivity|].
  destruct (handleBecomeHelper_grants Js.toUpperCase "select-helper-roles" [by_ann] st by_ann
              selectedRole eq_refl eq_refl Hnew eq_refl)
    as (w' & E & _ & Hroles).
  exists w'. split; [exact E|exact Hroles].
Defined.

Lemma handleBecomeHelper_rejected_witness :
  let st := (constructor (command []), start server [true]) in
  let selectedRole :=
    {| hr_id := 50; hr_role := "math-helper"; hr_subject := "Math" |} in
  List.find (collectorFilter st.1) [by_ann] = Some by_ann
  ∧ List.find (is_selected by_ann) (helperRoles Js.toUpperCase server) = Some selectedRole
  ∧ (50%N ∉ roles_of server 7)
  ∧ accepts st.2 = false
  ∧ ∃ w',
      handleBecomeHelper Js.toUpperCase "select-helper-roles" [by_ann] st
      = (Thrown (DiscordAPIError (MemberRolesAdd 7 50)), (st.1, w'))
      ∧ guild w' = server.
Proof.
  intros st selectedRole.
  assert (Hnew : 50%N ∉ roles_of server 7)
    by (apply (bool_decide_unpack _); vm_compute; exact I).
  do 2 (split; [reflexivity|]). split; [exact Hnew|]. split; [reflexivity|].
  destruct (handleBecomeHelper_rejected Js.toUpperCase "select-helper-roles" [by_ann] st by_ann
              selectedRole eq_refl eq_refl Hnew eq_refl)
    as (w' & E & _ & Hguild).
  exists w'. split; [exact E|exact Hguild].
Defined.

(** [ann] submits a value that is the identifier of no helper role. *)
Lemma handleBecomeHelper_unknown_value_witness :
  let st := (constructor (command []), start server []) in
  let selection := {| sel_user := 7; sel_values := [99%N] |} in
  List.find (collectorFilter st.1) [selection] = Some selection
  ∧ handleBecomeHelper Js.toUpperCase "select-helper-roles" [selection] st
    = (Thrown no_role,
       (st.1,
        log (log st.2 (prompt Js.toUpperCase "select-helper-roles" server))
          InteractionDeleteReply)).
Proof.
  intros st selection. split; [reflexivity|].
  apply (handleBecomeHelper_unknown_value Js.toUpperCase "select-helper-roles" [selection] st
           selection eq_refl).
  intros role Hrole _ Hhead.
  apply list_elem_of_singleton in Hrole as ->. discriminate Hhead.
Defined.

(** [ann] submits two values; the second one is of no account. *)
Lemma handleBecomeHelper_first_value_only_witness :
  let st := (constructor (command []), start server []) in
  let selection := {| sel_user := 7; sel_values := [50%N; 60%N] |} in
  sel_user selection = sel_user by_ann
  ∧ head (sel_values selection) = head (sel_values by_ann)
  ∧ handleBecomeHelper Js.toUpperCase "select-helper-roles" [by_bob; selection] st
    = handleBecomeHelper Js.toUpperCase "select-helper-roles" [by_bob; by_ann] st.
Proof.
  intros st selection. do 2 (split; [reflexivity|]).
  exact (handleBecomeHelper_first_value_only Js.toUpperCase "select-helper-roles" [by_bob] []
           selection by_ann st eq_refl eq_refl).
Defined.

(** The channel has no helper role. *)
Lemma handleWhipSlaves_no_role_witness :
  let st := (constructor (command []), start server []) in
  let helperThreadToRoleName := λ _ : Channel, @None Role in
  helperThreadToRoleName (int_channel (interaction st.1)) = None
  ∧ handleWhipSlaves (λ _, true) helperThreadToRoleName st
    = (Thrown no_role, (st.1, log st.2 InteractionDeferReply)).
Proof.
  intros st helperThreadToRoleName. split; [reflexivity|].
  exact (handleWhipSlaves_no_role (λ _, true) helperThreadToRoleName st eq_refl).
Defined.

(** Biology is created on the guild without a category, and [ann] selects
    its role, which got the identifier 103. *)
Lemma created_subject_can_be_joined_witness :
  let st := (constructor (command biology), start bare []) in
  let st1 := (handleCreateSubject Js.toLowerCase "Subjects" 4 15 validate st).2 in
  let selection := {| sel_user := 7; sel_values := [103%N] |} in
  memo_consistent "Subjects" 4 st
  ∧ validate (optionsObject (int_options (interaction st.1)))
    = inr {| name := "Biology"; color := "#00FF00"; emoji := "🧬" |}
  ∧ (true ∉ faults st.2)
  ∧ List.find (collectorFilter (constructor (command []))) [selection]
    = Some selection
  ∧ head (sel_values selection)
    = last (role_id <$> roles_cache (guild st1.2))
  ∧ (handleBecomeHelper Js.toUpperCase "select-helper-roles" [selection]
       (constructor (command []), st1.2)).1 = Returned ().
Proof.
  intros st st1 selection.
  assert (Hm : memo_consistent "Subjects" 4 st)
    by (intros id Hid; discriminate Hid).
  assert (Hfaults : true ∉ faults st.2) by (intros H; inversion H).
  split; [exact Hm|]. split; [reflexivity|]. split; [exact Hfaults|].
  do 2 (split; [reflexivity|]).
  destruct (created_subject_can_be_joined Js.toLowerCase Js.toUpperCase "Subjects" 4 15 "select-helper-roles"
              validate st _ (command []) [selection] selection Hm eq_refl
              Hfaults eq_refl eq_refl)
    as (role & _ & _ & H & _).
  exact H.
Defined.
